(** * UserState: the session and book-collection container of the book library

    A shallow embedding of [src/lib/state/user-state.svelte.ts] and the
    properties of its derived views and mutating operations.

    Conventions of the embedding.
    - A JavaScript string is a Rocq [string], read as a sequence of code
      units below 256.
    - A JavaScript number that the program computes with is an integer or
      NaN ([number]); a book's [rating] is the database's small integer, so
      [option Z] stands for [number | null].
    - [T | null] is [option T]; truthiness is written out where the source
      relies on it.
    - The remote service is an oracle [Backend] of replies.  Each method is
      given as a function, the call run to its end with nothing in between,
      and the asynchronous ones again as steps from [await] to [await]
      ([task], [step]), which is how they interleave.
    - A synchronous method that can throw, and the promise of an asynchronous
      method, yield a [completion]. *)

From Stdlib Require Import ZArith NArith List String Ascii Bool Lia.
From Stdlib Require Import Sorting.Sorted Sorting.Permutation.
Import ListNotations.

Local Open Scope string_scope.
Local Open Scope Z_scope.

(* ================================================================= *)
(** ** The JavaScript values the program manipulates *)

Inductive JsError : Type :=
| TypeError (message : string).

Inductive completion (A : Type) : Type :=
| Normal (value : A)
| Throw (e : JsError).
Arguments Normal {A} value.
Arguments Throw {A} e.

(** Integer-valued numbers and NaN. *)
Inductive number : Type :=
| NaN
| Num (z : Z).

Definition number_sub (x y : number) : number :=
  match x, y with
  | Num a, Num b => Num (a - b)
  | _, _ => NaN
  end.

Definition number_add (x y : number) : number :=
  match x, y with
  | Num a, Num b => Num (a + b)
  | _, _ => NaN
  end.

(** [x > y]; false as soon as one side is NaN. *)
Definition number_gt (x y : number) : bool :=
  match x, y with
  | Num a, Num b => b <? a
  | _, _ => false
  end.

(** ToBoolean on a number: 0 and NaN are falsy. *)
Definition number_truthy (x : number) : bool :=
  match x with
  | NaN => false
  | Num z => negb (z =? 0)
  end.

(** ToNumber on [number | null]: null is 0. *)
Definition nullable_to_number (r : option Z) : number :=
  match r with
  | Some z => Num z
  | None => Num 0
  end.

(** ToBoolean on [number | null]. *)
Definition nullable_number_truthy (r : option Z) : bool :=
  match r with
  | Some z => negb (z =? 0)
  | None => false
  end.

(** ToBoolean on [object | null]. *)
Definition not_null {A : Type} (o : option A) : bool :=
  match o with
  | Some _ => true
  | None => false
  end.

(** ToBoolean on [string | null]: null and the empty string are falsy. *)
Definition nullable_string_truthy (s : option string) : bool :=
  match s with
  | Some (String _ _) => true
  | _ => false
  end.

(* ================================================================= *)
(** ** String.prototype methods *)

(** White space and line terminators among the code units below 256:
    TAB, LF, VT, FF, CR, SPACE and NO-BREAK SPACE. *)
Definition is_white_space (c : ascii) : bool :=
  let n := nat_of_ascii c in
  (Nat.leb 9 n && Nat.leb n 13) || Nat.eqb n 32 || Nat.eqb n 160.

Fixpoint trimStart (s : string) : string :=
  match s with
  | EmptyString => EmptyString
  | String c r => if is_white_space c then trimStart r else s
  end.

Fixpoint trimEnd (s : string) : string :=
  match s with
  | EmptyString => EmptyString
  | String c r =>
      match trimEnd r with
      | EmptyString => if is_white_space c then EmptyString else String c EmptyString
      | r' => String c r'
      end
  end.

Definition trim (s : string) : string := trimEnd (trimStart s).

(** A string of white space only. *)
Definition all_white_space (s : string) : Prop :=
  Forall (fun c => is_white_space c = true) (list_ascii_of_string s).

(** [s.startsWith(p)]. *)
Definition startsWith (s p : string) : bool := String.prefix p s.

(** [s.includes(sub)]: [sub] occurs at some position of [s]. *)
Fixpoint includes (s sub : string) : bool :=
  match s with
  | EmptyString => String.prefix sub EmptyString
  | String _ r => String.prefix sub s || includes r sub
  end.

(** The scan of [s.split(sep)] for a non-empty [sep]: the segment up to the
    next occurrence of [sep] and the segments after it.  [skip] counts the
    code units of a matched separator that are still to be dropped. *)
Fixpoint split_scan (sep : string) (skip : nat) (s : string) : string * list string :=
  match s with
  | EmptyString => (EmptyString, [])
  | String c r =>
      match skip with
      | S k => split_scan sep k r
      | O =>
          if String.prefix sep s then
            let '(seg, segs) := split_scan sep (Nat.pred (String.length sep)) r in
            (EmptyString, seg :: segs)
          else
            let '(seg, segs) := split_scan sep O r in
            (String c seg, segs)
      end
  end.

Fixpoint code_units (s : string) : list string :=
  match s with
  | EmptyString => []
  | String c r => String c EmptyString :: code_units r
  end.

(** [s.split(sep)]: an empty separator splits between code units. *)
Definition split (s sep : string) : list string :=
  match sep with
  | EmptyString => code_units s
  | _ => let '(seg, segs) := split_scan sep O s in seg :: segs
  end.

(* ================================================================= *)
(** ** Array.prototype methods *)

Section Arrays.
Context {A : Type}.

(** The comparator's result as the sort reads it: NaN counts as +0. *)
Definition compare_result (v : number) : Z :=
  match v with
  | NaN => 0
  | Num z => z
  end.

(** [x] is placed after every leading [y] that the comparator orders
    before it, and before the first one it does not: equal elements keep
    their order. *)
Fixpoint sorted_insert (comparefn : A -> A -> number) (x : A) (l : list A) : list A :=
  match l with
  | [] => [x]
  | y :: l' =>
      if 0 <? compare_result (comparefn x y)
      then y :: sorted_insert comparefn x l'
      else x :: l
  end.

(** [l.toSorted(comparefn)]: a stable sort into a new array. *)
Definition toSorted (comparefn : A -> A -> number) (l : list A) : list A :=
  fold_right (sorted_insert comparefn) [] l.

(** [l.slice(0, n)]. *)
Definition slice0 (n : nat) (l : list A) : list A := firstn n l.

(** [l.reduce(f)] with no initial value. *)
Definition reduce (f : A -> A -> A) (l : list A) : completion A :=
  match l with
  | [] => Throw (TypeError "Reduce of empty array with no initial value")
  | x :: l' => Normal (fold_left f l' x)
  end.

(** [l.find(p)]. *)
Definition array_find (p : A -> bool) (l : list A) : option A := List.find p l.
End Arrays.

(* ================================================================= *)
(** ** An ordinary object used as a table from strings to numbers

    [genreCounts] starts as [{}]: its own properties are kept in creation
    order, reads fall back on [Object.prototype], and [Object.keys] lists
    array-index keys first, in ascending order, then the other keys in
    creation order. *)

Inductive value : Type :=
| Undefined
| Number (n : number)
| Inherited.  (* a function or object found on Object.prototype *)

Definition value_truthy (v : value) : bool :=
  match v with
  | Undefined => false
  | Number n => number_truthy n
  | Inherited => true
  end.

Definition value_to_number (v : value) : number :=
  match v with
  | Number n => n
  | Undefined | Inherited => NaN
  end.

Definition Object_prototype_keys : list string :=
  [ "constructor"; "hasOwnProperty"; "isPrototypeOf"; "propertyIsEnumerable";
    "toLocaleString"; "toString"; "valueOf"; "__proto__";
    "__defineGetter__"; "__defineSetter__"; "__lookupGetter__"; "__lookupSetter__" ].

Definition string_mem (k : string) (l : list string) : bool :=
  existsb (String.eqb k) l.

Definition JsObject : Type := list (string * number).

Fixpoint own_lookup (k : string) (o : JsObject) : option number :=
  match o with
  | [] => None
  | (k', n) :: o' => if String.eqb k k' then Some n else own_lookup k o'
  end.

Fixpoint own_store (k : string) (n : number) (o : JsObject) : JsObject :=
  match o with
  | [] => [(k, n)]
  | (k', n') :: o' =>
      if String.eqb k k' then (k', n) :: o' else (k', n') :: own_store k n o'
  end.

(** [o[k]]. *)
Definition object_get (o : JsObject) (k : string) : value :=
  match own_lookup k o with
  | Some n => Number n
  | None => if string_mem k Object_prototype_keys then Inherited else Undefined
  end.

(** [o[k] = n]: the [__proto__] setter ignores a number. *)
Definition object_set (o : JsObject) (k : string) (n : number) : JsObject :=
  if String.eqb k "__proto__" then o else own_store k n o.

Definition digit_value (c : ascii) : option N :=
  let n := N_of_ascii c in
  if (48 <=? n)%N && (n <=? 57)%N then Some (n - 48)%N else None.

Fixpoint digits_value (acc : N) (s : string) : option N :=
  match s with
  | EmptyString => Some acc
  | String c r =>
      match digit_value c with
      | Some d => digits_value (10 * acc + d)%N r
      | None => None
      end
  end.

(** The array index a key denotes: a canonical decimal numeral at most
    2^32 - 2. *)
Definition array_index (k : string) : option N :=
  match k with
  | EmptyString => None
  | String c r =>
      if Ascii.eqb c "0"%char && negb (String.eqb r EmptyString) then None
      else
        match digits_value 0%N k with
        | Some n => if (n <=? 4294967294)%N then Some n else None
        | None => None
        end
  end.

Definition is_array_index (k : string) : bool :=
  match array_index k with
  | Some _ => true
  | None => false
  end.

Definition index_of_key (k : string) : Z :=
  match array_index k with
  | Some n => Z.of_N n
  | None => 0
  end.

(** The order in which the own keys, given in creation order, are listed. *)
Definition own_property_order (created : list string) : list string :=
  toSorted (fun a b => Num (index_of_key a - index_of_key b))
           (filter is_array_index created)
  ++ filter (fun k => negb (is_array_index k)) created.

Definition Object_keys (o : JsObject) : list string :=
  own_property_order (map fst o).

(* ================================================================= *)
(** ** Data model *)

Module Book.
Record t : Type := mk {
  author : option string;
  cover_image : option string;
  created_at : string;
  description : option string;
  finished_reading_on : option string;
  genre : option string;
  id : Z;
  rating : option Z;
  started_reading_on : option string;
  title : string;
  user_id : string
}.

Definition with_cover_image (book : t) (c : option string) : t :=
  mk (author book) c (created_at book) (description book)
     (finished_reading_on book) (genre book) (id book) (rating book)
     (started_reading_on book) (title book) (user_id book).
End Book.

(** [Partial<UpdatableBookFields>]: each updatable field is absent ([None])
    or present with its new value. *)
Module UpdatableBookFields.
Record partial : Type := mk {
  author : option (option string);
  cover_image : option (option string);
  description : option (option string);
  finished_reading_on : option (option string);
  genre : option (option string);
  rating : option (option Z);
  started_reading_on : option (option string);
  title : option string
}.

Definition empty : partial := mk None None None None None None None None.
End UpdatableBookFields.

Definition override {A : Type} (update : option A) (current : A) : A :=
  match update with
  | Some v => v
  | None => current
  end.

(** [{ ...book, ...updateObject }]. *)
Definition spread (book : Book.t) (updateObject : UpdatableBookFields.partial) : Book.t :=
  Book.mk
    (override (UpdatableBookFields.author updateObject) (Book.author book))
    (override (UpdatableBookFields.cover_image updateObject) (Book.cover_image book))
    (Book.created_at book)
    (override (UpdatableBookFields.description updateObject) (Book.description book))
    (override (UpdatableBookFields.finished_reading_on updateObject) (Book.finished_reading_on book))
    (override (UpdatableBookFields.genre updateObject) (Book.genre book))
    (Book.id book)
    (override (UpdatableBookFields.rating updateObject) (Book.rating book))
    (override (UpdatableBookFields.started_reading_on updateObject) (Book.started_reading_on book))
    (override (UpdatableBookFields.title updateObject) (Book.title book))
    (Book.user_id book).

Module User.
Record t : Type := mk { id : string }.
End User.

Module Session.
Record t : Type := mk { access_token : string; user : User.t }.
End Session.

(** The client is a handle: what the service answers is the [Backend]. *)
Module SupabaseClient.
Record t : Type := mk { supabaseUrl : string }.
End SupabaseClient.

Module File.
Record t : Type := mk { name : string }.
End File.

Module UserNameRow.
Record t : Type := mk { name : string }.
End UserNameRow.

Module SignedUrl.
Record t : Type := mk { signedUrl : string }.
End SignedUrl.

Record ServiceError : Type := { message : string }.

(** A reply of the service: [{ data, error, status }]. *)
Record Response (A : Type) : Type := {
  data : option A;
  error : option ServiceError;
  status : Z
}.
Arguments data {A} _.
Arguments error {A} _.
Arguments status {A} _.

(** What the remote service answers to each request the class sends. *)
Record Backend : Type := {
  (* from("books").select("*").eq("user_id", userId) *)
  books_select : string -> Response (list Book.t);
  (* from("user_names").select("name").eq("user_id", userId).single() *)
  user_names_select : string -> Response UserNameRow.t;
  (* from("books").update(updateObject).eq("id", bookId) *)
  books_update : UpdatableBookFields.partial -> Z -> Response unit;
  (* storage.from("book-covers").upload(filePath, file) *)
  covers_upload : string -> File.t -> Response unit;
  (* storage.from("book-covers").getPublicUrl(filePath).data.publicUrl *)
  covers_getPublicUrl : string -> string;
  (* storage.from("book-covers").createSignedUrl(filePath, expiresIn);
     the path is [undefined] when [None] *)
  covers_createSignedUrl : option string -> Z -> Response SignedUrl.t
}.

Module UserStateProps.
Record t : Type := mk {
  session : option Session.t;
  supabase : option SupabaseClient.t;
  user : option User.t
}.
End UserStateProps.

Record UserState : Type := mkUserState {
  session : option Session.t;
  supabase : option SupabaseClient.t;
  user : option User.t;
  allBooks : list Book.t;
  userName : option string
}.

Definition set_allBooks (this : UserState) (books : list Book.t) : UserState :=
  mkUserState (session this) (supabase this) (user this) books (userName this).

Definition set_userName (this : UserState) (n : option string) : UserState :=
  mkUserState (session this) (supabase this) (user this) (allBooks this) n.

(** The update object [{ rating: r }]. *)
Definition rating_update (r : Z) : UpdatableBookFields.partial :=
  UpdatableBookFields.mk None None None None None (Some (Some r)) None None.

(** The field initialisers of the class. *)
Definition initial_state : UserState := mkUserState None None None [] None.

(* ================================================================= *)
(** ** The class [UserState] *)

Section UserStateClass.

(** [$env/static/public]: the public URL of the project. *)
Variable PUBLIC_SUPABASE_URL : string.

(** [new Date(s).getTime()]: the time value of the date [s] denotes, NaN
    when [s] is not a date. *)
Variable Date_getTime : string -> number.

(** The callback of [booksResponse.data.map] in [fetchUserData]. *)
Definition sign_cover_image (be : Backend) (this : UserState) (book : Book.t) : Book.t :=
  match Book.cover_image book with
  | Some cover =>
      if nullable_string_truthy (Some cover)
         && startsWith cover PUBLIC_SUPABASE_URL
         && not_null (supabase this)
      then
        let bucketPath :=
          PUBLIC_SUPABASE_URL ++ "/storage/v1/object/public/book-covers/" in
        let filePath := nth_error (split cover bucketPath) 1 in
        match data (covers_createSignedUrl be filePath 3600) with
        | Some signedUrlData =>
            Book.with_cover_image book (Some (SignedUrl.signedUrl signedUrlData))
        | None => book
        end
      else book
  | None => book
  end.

Definition fetchUserData (be : Backend) (this : UserState) : completion UserState :=
  match user this, supabase this with
  | Some u, Some _ =>
      let userId := User.id u in
      let booksResponse := books_select be userId in
      let userNamesResponse := user_names_select be userId in
      match error booksResponse, data booksResponse,
            error userNamesResponse, data userNamesResponse with
      | None, Some books, None, Some row =>
          let this1 := set_allBooks this (map (sign_cover_image be this) books) in
          Normal (set_userName this1 (Some (UserNameRow.name row)))
      | _, _, _, _ => Normal this
      end
  | _, _ => Normal this
  end.

(** [updateState] starts [fetchUserData] and does not wait for it: the
    result is the state once that promise has settled. *)
Definition updateState (be : Backend) (props : UserStateProps.t) (this : UserState)
  : UserState :=
  let this1 :=
    mkUserState (UserStateProps.session props) (UserStateProps.supabase props)
                (UserStateProps.user props) (allBooks this) (userName this) in
  match fetchUserData be this1 with
  | Normal this2 => this2
  | Throw _ => this1
  end.

Definition constructor (be : Backend) (props : UserStateProps.t) : UserState :=
  updateState be props initial_state.

Definition getHighestRatedBooks (this : UserState) : list Book.t :=
  slice0 9
    (toSorted
       (fun a z => number_sub (nullable_to_number (Book.rating z))
                              (nullable_to_number (Book.rating a)))
       (filter (fun book => nullable_number_truthy (Book.rating book))
               (allBooks this))).

Definition getUnreadBooks (this : UserState) : list Book.t :=
  slice0 9
    (toSorted
       (fun a z => number_sub (Date_getTime (Book.created_at z))
                              (Date_getTime (Book.created_at a)))
       (filter (fun book => negb (nullable_string_truthy (Book.started_reading_on book)))
               (allBooks this))).

(** The counting of one non-empty trimmed token: the inner conditional of
    [genres.forEach]. *)
Definition count_token (genreCounts : JsObject) (trimmedGenre : string) : JsObject :=
  if negb (value_truthy (object_get genreCounts trimmedGenre)) then
    object_set genreCounts trimmedGenre (Num 1)
  else
    object_set genreCounts trimmedGenre
      (number_add (value_to_number (object_get genreCounts trimmedGenre)) (Num 1)).

(** The body of [genres.forEach]. *)
Definition count_genre (genreCounts : JsObject) (genre : string) : JsObject :=
  let trimmedGenre := trim genre in
  if nullable_string_truthy (Some trimmedGenre) then
    count_token genreCounts trimmedGenre
  else genreCounts.

(** The body of [this.allBooks.forEach]. *)
Definition count_book_genres (genreCounts : JsObject) (book : Book.t) : JsObject :=
  let genres :=
    match Book.genre book with
    | Some g => if nullable_string_truthy (Some g) then split g "," else []
    | None => []
    end in
  fold_left count_genre genres genreCounts.

Definition genreCounts_of (books : list Book.t) : JsObject :=
  fold_left count_book_genres books [].

Definition getFavoriteGenre (this : UserState) : completion string :=
  match allBooks this with
  | [] => Normal ""
  | _ :: _ =>
      let genreCounts := genreCounts_of (allBooks this) in
      match
        reduce (fun a b =>
                  if number_gt (value_to_number (object_get genreCounts a))
                               (value_to_number (object_get genreCounts b))
                  then a else b)
               (Object_keys genreCounts)
      with
      | Normal mostCommonGenre =>
          Normal (if nullable_string_truthy (Some mostCommonGenre)
                  then mostCommonGenre else "")
      | Throw e => Throw e
      end
  end.

Definition getBooksFromFavoriteGenre (this : UserState) : completion (list Book.t) :=
  match getFavoriteGenre this with
  | Normal mostCommonGenre =>
      Normal
        (toSorted
           (fun a z =>
              let ratingA :=
                if nullable_number_truthy (Book.rating a)
                then nullable_to_number (Book.rating a) else Num 0 in
              let ratingZ :=
                if nullable_number_truthy (Book.rating z)
                then nullable_to_number (Book.rating z) else Num 0 in
              number_sub ratingZ ratingA)
           (filter (fun book =>
                      match Book.genre book with
                      | Some g => includes g mostCommonGenre
                      | None => false
                      end)
                   (allBooks this)))
  | Throw e => Throw e
  end.

Definition getBookById (bookId : Z) (this : UserState) : option Book.t :=
  array_find (fun book => Book.id book =? bookId) (allBooks this).

Definition updateBook (be : Backend) (bookId : Z)
           (updateObject : UpdatableBookFields.partial) (this : UserState)
  : completion UserState :=
  match supabase this with
  | None => Normal this
  | Some _ =>
      let reply := books_update be updateObject bookId in
      if (status reply =? 204) && negb (not_null (error reply)) then
        Normal
          (set_allBooks this
             (map (fun book =>
                     if Book.id book =? bookId then spread book updateObject else book)
                  (allBooks this)))
      else Normal this
  end.

Definition uploadBookCover (be : Backend) (file : File.t) (bookId : Z)
           (this : UserState) : completion UserState :=
  match user this, supabase this with
  | Some u, Some _ =>
      let filePath := User.id u ++ "/" ++ File.name file in
      match error (covers_upload be filePath file) with
      | Some _ => Normal this
      | None =>
          let publicUrl := covers_getPublicUrl be filePath in
          let reply :=
            books_update be
              (UpdatableBookFields.mk None (Some (Some publicUrl)) None None None
                                      None None None)
              bookId in
          if negb (status reply =? 204) || not_null (error reply)
          then Normal this
          else
            match data (covers_createSignedUrl be (Some filePath) 3600) with
            | Some d =>
                if nullable_string_truthy (Some (SignedUrl.signedUrl d)) then
                  Normal
                    (set_allBooks this
                       (map (fun book =>
                               if Book.id book =? bookId
                               then Book.with_cover_image book
                                      (Some (SignedUrl.signedUrl d))
                               else book)
                            (allBooks this)))
                else Normal this
            | None => Normal this
            end
      end
  | _, _ => Normal this
  end.


(* --------------------------------------------------------------- *)
(** *** Notions the properties are stated with *)

(** The non-empty trimmed tokens of a book's comma-joined genres. *)
Definition book_tokens (book : Book.t) : list string :=
  match Book.genre book with
  | Some g =>
      filter (fun t => nullable_string_truthy (Some t)) (map trim (split g ","))
  | None => []
  end.

(** The tokens of all the books, in the order they are read. *)
Definition all_tokens (books : list Book.t) : list string :=
  flat_map book_tokens books.

(** How often [t] occurs in [l]. *)
Definition occurrences (t : string) (l : list string) : Z :=
  Z.of_nat (count_occ string_dec l t).

(** The distinct elements of [l], in the order of their first occurrence. *)
Fixpoint first_seen (l : list string) : list string :=
  match l with
  | [] => []
  | t :: l' => t :: filter (fun k => negb (String.eqb k t)) (first_seen l')
  end.

(** A book whose [started_reading_on] is null or the empty string. *)
Definition not_started (book : Book.t) : Prop :=
  Book.started_reading_on book = None \/ Book.started_reading_on book = Some "".

(** [a] is rated at least as high as [z], both being rated. *)
Definition rating_ge (a z : Book.t) : Prop :=
  exists ra rz, Book.rating a = Some ra /\ Book.rating z = Some rz /\ rz <= ra.

(** [a.rating || 0]. *)
Definition rating_or_0 (book : Book.t) : Z :=
  match Book.rating book with
  | Some r => r
  | None => 0
  end.

(** [a] was created no earlier than [z], both dates being valid. *)
Definition created_ge (a z : Book.t) : Prop :=
  exists ta tz,
    Date_getTime (Book.created_at a) = Num ta /\
    Date_getTime (Book.created_at z) = Num tz /\ tz <= ta.

(** [sub] occurs in [s]. *)
Definition substring_of (sub s : string) : Prop :=
  exists pre post, s = pre ++ sub ++ post.

(** The books query answers with rows of the user it was asked for. *)
Definition honours_filter (be : Backend) : Prop :=
  forall userId books,
    data (books_select be userId) = Some books ->
    Forall (fun book => Book.user_id book = userId) books.

(** Both fetches of [fetchUserData] for [userId] succeed. *)
Definition fetch_succeeds (be : Backend) (userId : string) : Prop :=
  error (books_select be userId) = None /\
  data (books_select be userId) <> None /\
  error (user_names_select be userId) = None /\
  data (user_names_select be userId) <> None.

(** One of the two fetches for [userId] answers with an error or with no
    data. *)
Definition fetch_fails (be : Backend) (userId : string) : Prop :=
  error (books_select be userId) <> None \/
  data (books_select be userId) = None \/
  error (user_names_select be userId) <> None \/
  data (user_names_select be userId) = None.

(** Every book of the list belongs to the current user. *)
Definition books_owned_by_user (this : UserState) : Prop :=
  forall book, In book (allBooks this) ->
    exists u, user this = Some u /\ Book.user_id book = User.id u.

(* --------------------------------------------------------------- *)
(** *** The methods step by step

    [updateState] does not wait for [fetchUserData], and every asynchronous
    method gives way at each of its [await]s: whatever is called or resumed
    in between sees, and changes, the same object.  A [task] is a method
    suspended at an [await], with the local variables it still needs; a
    [configuration] is the object together with the suspended methods.  The
    functions above are the runs in which a call is resumed to its end
    before anything else happens. *)

Inductive task : Type :=
(* fetchUserData at line 54, both queries sent for [userId] *)
| AwaitFetch (userId : string)
(* fetchUserData at line 77, the rows on their way to being signed *)
| AwaitSignedCovers (userId : string) (books : list Book.t) (name : string)
(* updateBook at line 167 *)
| AwaitUpdate (bookId : Z) (updateObject : UpdatableBookFields.partial)
(* uploadBookCover at line 192 *)
| AwaitUpload (filePath : string) (file : File.t) (bookId : Z)
(* uploadBookCover at line 205 *)
| AwaitCoverUpdate (filePath publicUrl : string) (bookId : Z)
(* uploadBookCover at line 216 *)
| AwaitCoverSigned (filePath : string) (bookId : Z).

Record configuration : Type := {
  current : UserState;
  pending : list task
}.

(** [fetchUserData] up to its first [await]. *)
Definition start_fetchUserData (this : UserState) : list task :=
  match user this, supabase this with
  | Some u, Some _ => [AwaitFetch (User.id u)]
  | _, _ => []
  end.

(** [updateState]: the three assignments, and the fetch it starts. *)
Definition start_updateState (props : UserStateProps.t) (this : UserState)
  : UserState * list task :=
  let this1 :=
    mkUserState (UserStateProps.session props) (UserStateProps.supabase props)
                (UserStateProps.user props) (allBooks this) (userName this) in
  (this1, start_fetchUserData this1).

(** [updateBook] up to its [await]. *)
Definition start_updateBook (bookId : Z) (updateObject : UpdatableBookFields.partial)
           (this : UserState) : list task :=
  match supabase this with
  | Some _ => [AwaitUpdate bookId updateObject]
  | None => []
  end.

(** [uploadBookCover] up to its first [await]. *)
Definition start_uploadBookCover (file : File.t) (bookId : Z) (this : UserState)
  : list task :=
  match user this, supabase this with
  | Some u, Some _ => [AwaitUpload (User.id u ++ "/" ++ File.name file) file bookId]
  | _, _ => []
  end.

(** A suspended method resumed with the service's answer, up to its next
    [await] or its end: the object it leaves and what it is suspended at
    next.  The signed URLs that the rows are waiting for are read off the
    same answers.  A method that finds the client gone where it does not
    test for it (lines 203, 205 and 216) ends there, its promise rejected. *)
Definition resume (be : Backend) (t : task) (this : UserState)
  : UserState * list task :=
  match t with
  | AwaitFetch userId =>
      let booksResponse := books_select be userId in
      let userNamesResponse := user_names_select be userId in
      match error booksResponse, data booksResponse,
            error userNamesResponse, data userNamesResponse with
      | None, Some books, None, Some row =>
          (this, [AwaitSignedCovers userId (map (sign_cover_image be this) books)
                                    (UserNameRow.name row)])
      | _, _, _, _ => (this, [])
      end
  | AwaitSignedCovers _ books name =>
      (set_userName (set_allBooks this books) (Some name), [])
  | AwaitUpdate bookId updateObject =>
      let reply := books_update be updateObject bookId in
      if (status reply =? 204) && negb (not_null (error reply)) then
        (set_allBooks this
           (map (fun book =>
                   if Book.id book =? bookId then spread book updateObject else book)
                (allBooks this)),
         [])
      else (this, [])
  | AwaitUpload filePath file bookId =>
      match error (covers_upload be filePath file), supabase this with
      | None, Some _ =>
          (this, [AwaitCoverUpdate filePath (covers_getPublicUrl be filePath) bookId])
      | _, _ => (this, [])
      end
  | AwaitCoverUpdate filePath publicUrl bookId =>
      let reply :=
        books_update be
          (UpdatableBookFields.mk None (Some (Some publicUrl)) None None None
                                  None None None)
          bookId in
      if negb (status reply =? 204) || not_null (error reply) then (this, [])
      else
        match supabase this with
        | Some _ => (this, [AwaitCoverSigned filePath bookId])
        | None => (this, [])
        end
  | AwaitCoverSigned filePath bookId =>
      match data (covers_createSignedUrl be (Some filePath) 3600) with
      | Some d =>
          if nullable_string_truthy (Some (SignedUrl.signedUrl d)) then
            (set_allBooks this
               (map (fun book =>
                       if Book.id book =? bookId
                       then Book.with_cover_image book (Some (SignedUrl.signedUrl d))
                       else book)
                    (allBooks this)),
             [])
          else (this, [])
      | None => (this, [])
      end
  end.

(** One step of a session: a method is called, or a suspended one is
    resumed, in any order, with the answer of a service that honours the
    query filter. *)
Inductive step : configuration -> configuration -> Prop :=
| step_updateState props c :
    step c {| current := fst (start_updateState props (current c));
              pending := (pending c ++ snd (start_updateState props (current c)))%list |}
| step_updateBook bookId updateObject c :
    step c {| current := current c;
              pending := (pending c
                          ++ start_updateBook bookId updateObject (current c))%list |}
| step_uploadBookCover file bookId c :
    step c {| current := current c;
              pending := (pending c
                          ++ start_uploadBookCover file bookId (current c))%list |}
| step_resume be t before after c :
    honours_filter be ->
    pending c = (before ++ t :: after)%list ->
    step c {| current := fst (resume be t (current c));
              pending := (before ++ snd (resume be t (current c)) ++ after)%list |}.

Inductive steps : configuration -> configuration -> Prop :=
| steps_done c : steps c c
| steps_next c c' c'' : step c c' -> steps c' c'' -> steps c c''.

(** [new UserState(props)]: the field initialisers, then [updateState]. *)
Definition new_UserState (props : UserStateProps.t) : configuration :=
  {| current := fst (start_updateState props initial_state);
     pending := snd (start_updateState props initial_state) |}.

(** The configurations of a session: construction, then any steps. *)
Inductive reachable : configuration -> Prop :=
| reach_new props : reachable (new_UserState props)
| reach_step c c' : reachable c -> step c c' -> reachable c'.

(** The favorite genre as the specification words it: the token with the
    highest count, the first-seen one winning ties, and the empty string
    when there is no token. *)
Definition spec_favoriteGenre (books : list Book.t) : string :=
  let tokens := all_tokens books in
  fold_left (fun best t =>
               if occurrences best tokens <? occurrences t tokens then t else best)
            (first_seen tokens) "".

(* --------------------------------------------------------------- *)
(** *** Sample data *)

Definition sample_book (id : Z) (owner : string) (genre : option string)
           (rating : option Z) : Book.t :=
  Book.mk (Some "Ursula K. Le Guin") None "1700000000000" None None genre id rating
          None "The Dispossessed" owner.

Definition sample_client : SupabaseClient.t :=
  SupabaseClient.mk "https://project.supabase.co".

Definition alice : User.t := User.mk "alice".
Definition bob : User.t := User.mk "bob".

Definition props_of (u : User.t) : UserStateProps.t :=
  UserStateProps.mk (Some (Session.mk "token" u)) (Some sample_client) (Some u).

Definition ok {A : Type} (a : A) : Response A :=
  {| data := Some a; error := None; status := 200 |}.

Definition no_content : Response unit :=
  {| data := None; error := None; status := 204 |}.

Definition failed {A : Type} (code : Z) : Response A :=
  {| data := None; error := Some {| message := "request failed" |}; status := code |}.

(** A service that answers every request, with one book per user. *)
Definition backend_up : Backend :=
  {| books_select := fun userId => ok [sample_book 1 userId (Some "Sci-Fi") (Some 4)];
     user_names_select := fun userId => ok (UserNameRow.mk userId);
     books_update := fun _ _ => no_content;
     covers_upload := fun _ _ => ok tt;
     covers_getPublicUrl := fun filePath => "https://project.supabase.co/" ++ filePath;
     covers_createSignedUrl := fun _ _ => ok (SignedUrl.mk "https://signed") |}.

(** A service that fails every request. *)
Definition backend_down : Backend :=
  {| books_select := fun _ => failed 500;
     user_names_select := fun _ => failed 500;
     books_update := fun _ _ => failed 500;
     covers_upload := fun _ _ => failed 500;
     covers_getPublicUrl := fun filePath => filePath;
     covers_createSignedUrl := fun _ _ => failed 500 |}.

(** A clock for the samples: a date is written as its time value. *)
Definition sample_getTime (s : string) : number :=
  match digits_value 0%N s with
  | Some n => Num (Z.of_N n)
  | None => NaN
  end.

Definition sample_url : string := "https://project.supabase.co".

(** A book that is its own record of when it was added and started. *)
Definition sample_book_at (id : Z) (created_at : string)
           (started_reading_on : option string) : Book.t :=
  Book.mk None None created_at None None (Some "Drama") id None
          started_reading_on "Kindred" "alice".

Definition sample_shelf : list Book.t :=
  [ sample_book_at 1 "1700000000000" None;
    sample_book_at 2 "1800000000000" (Some "2024-02-01");
    sample_book_at 3 "1900000000000" (Some "");
    sample_book_at 4 "1600000000000" None ].

Definition tied_genres : list Book.t :=
  [ sample_book 1 "alice" (Some "Drama, Comedy") (Some 3);
    sample_book 2 "alice" (Some "Poetry") None ].

Definition no_genres : list Book.t :=
  [ sample_book 1 "alice" None None;
    sample_book 2 "alice" (Some "") None;
    sample_book 3 "alice" (Some " , ,") None ].

Definition state_of_books (books : list Book.t) : UserState :=
  mkUserState (Some (Session.mk "token" alice)) (Some sample_client) (Some alice)
              books (Some "alice").

(* --------------------------------------------------------------- *)
(** *** Notions of the further properties *)

(** The public URL prefix under which the covers are stored. *)
Definition bucket_path (url : string) : string :=
  url ++ "/storage/v1/object/public/book-covers/".

(** The update object [{ cover_image: publicUrl }]. *)
Definition cover_image_update (publicUrl : string) : UpdatableBookFields.partial :=
  UpdatableBookFields.mk None (Some (Some publicUrl)) None None None None None None.

(** What neither [updateBook] nor [uploadBookCover] can write. *)
Definition book_identity (book : Book.t) : Z * string * string :=
  (Book.id book, Book.user_id book, Book.created_at book).

(** The local effect of a successful update of the books of id [bookId]. *)
Definition patch_book (bookId : Z) (updateObject : UpdatableBookFields.partial)
           (book : Book.t) : Book.t :=
  if Book.id book =? bookId then spread book updateObject else book.

(** What the table holds under the key [k] once [k] has been read [n]
    times: nothing under [__proto__]; one short, and NaN the first time,
    under the name of another property of [Object.prototype]; the number of
    readings otherwise. *)
Definition counted_as (k : string) (n : Z) : option number :=
  if String.eqb k "__proto__" then None
  else if n =? 0 then None
  else if string_mem k Object_prototype_keys
       then (if n =? 1 then Some NaN else Some (Num (n - 1)))
       else Some (Num n).

(** The tokens that the table can hold. *)
Definition storable_tokens (tokens : list string) : list string :=
  filter (fun t => negb (String.eqb t "__proto__")) tokens.

(* --------------------------------------------------------------- *)
(** *** Further sample data *)

Definition sample_file : File.t := File.mk "cover.png".

Definition sample_cover_book (id : Z) (cover : option string) : Book.t :=
  Book.mk None cover "1700000000000" None None (Some "Drama") id (Some 4) None
          "Parable of the Sower" "alice".

(** A service that stores covers and accepts updates, but signs nothing. *)
Definition backend_unsigned : Backend :=
  {| books_select := books_select backend_up;
     user_names_select := user_names_select backend_up;
     books_update := books_update backend_up;
     covers_upload := covers_upload backend_up;
     covers_getPublicUrl := covers_getPublicUrl backend_up;
     covers_createSignedUrl := fun _ _ => failed 400 |}.

(** The update object [{ started_reading_on: date }]. *)
Definition started_update (date : string) : UpdatableBookFields.partial :=
  UpdatableBookFields.mk None None None None None None (Some (Some date)) None.

End UserStateClass.

(** The configuration reached from [R] by resuming the task [t]. *)
Ltac resume_from R be t before after H R' :=
  match type of R with
  | reachable ?url ?c =>
      pose proof (reach_step url c _ R
                    (step_resume url be t before after c H eq_refl)) as R'
  end.

(** The configuration reached from [R] by calling [updateState]. *)
Ltac updateState_from R props R' :=
  match type of R with
  | reachable ?url ?c =>
      pose proof (reach_step url c _ R (step_updateState url props c)) as R'
  end.

(* --------------------------------------------------------------- *)
(** *** Sorting *)

Lemma sorted_insert_Permutation {A} (c : A -> A -> number) x l :
  Permutation (sorted_insert c x l) (x :: l).
Proof.
  induction l as [|y l IH]; simpl; [reflexivity|].
  destruct (0 <? compare_result (c x y)); [|reflexivity].
  rewrite IH. apply perm_swap.
Qed.

Lemma toSorted_Permutation {A} (c : A -> A -> number) l :
  Permutation (toSorted c l) l.
Proof.
  induction l as [|x l IH]; simpl; [constructor|].
  rewrite sorted_insert_Permutation. now constructor.
Qed.

Lemma toSorted_In {A} (c : A -> A -> number) l x :
  In x (toSorted c l) <-> In x l.
Proof.
  split; apply Permutation_in;
    [apply toSorted_Permutation | symmetry; apply toSorted_Permutation].
Qed.

Lemma toSorted_Forall {A} (c : A -> A -> number) (P : A -> Prop) l :
  Forall P l -> Forall P (toSorted c l).
Proof.
  rewrite !Forall_forall. intros H x Hx. apply H. now apply toSorted_In in Hx.
Qed.

Lemma sorted_insert_sorted {A} (key : A -> Z) (c : A -> A -> number) x l :
  (forall y, In y l -> compare_result (c x y) = key y - key x) ->
  StronglySorted (fun a z => key z <= key a) l ->
  StronglySorted (fun a z => key z <= key a) (sorted_insert c x l).
Proof.
  induction l as [|y l IH]; intros Hc Hs; simpl.
  - repeat constructor.
  - inversion Hs as [|? ? Hs' Hall]; subst.
    rewrite (Hc y (or_introl eq_refl)).
    destruct (0 <? key y - key x) eqn:E.
    + apply Z.ltb_lt in E. constructor.
      * apply IH; [intros; apply Hc; now right | assumption].
      * rewrite Forall_forall in *. intros w Hw.
        apply (Permutation_in _ (sorted_insert_Permutation c x l)) in Hw.
        destruct Hw as [<-|Hw]; [lia | now apply Hall].
    + apply Z.ltb_ge in E. constructor; [assumption|].
      constructor; [lia|].
      rewrite Forall_forall in *. intros w Hw. specialize (Hall w Hw). lia.
Qed.

Lemma toSorted_sorted {A} (key : A -> Z) (c : A -> A -> number) l :
  (forall a z, In a l -> In z l -> compare_result (c a z) = key z - key a) ->
  StronglySorted (fun a z => key z <= key a) (toSorted c l).
Proof.
  induction l as [|x l IH]; intros Hc; simpl; [constructor|].
  apply sorted_insert_sorted.
  - intros y Hy. apply Hc; [now left | right; now apply toSorted_In in Hy].
  - apply IH. intros; apply Hc; now right.
Qed.

Lemma firstn_In {A} n (l : list A) x : In x (firstn n l) -> In x l.
Proof.
  revert l; induction n as [|n IH]; intros [|y l]; simpl; try tauto.
  intros [->|H]; [now left | right; auto].
Qed.

Lemma StronglySorted_firstn {A} (R : A -> A -> Prop) n l :
  StronglySorted R l -> StronglySorted R (firstn n l).
Proof.
  revert l; induction n as [|n IH]; intros l Hs; simpl; [constructor|].
  destruct l as [|x l]; [constructor|].
  inversion Hs; subst. constructor; [now apply IH|].
  rewrite Forall_forall in *. intros w Hw. apply firstn_In in Hw. auto.
Qed.

Lemma Forall_firstn {A} (P : A -> Prop) n l :
  Forall P l -> Forall P (firstn n l).
Proof.
  rewrite !Forall_forall. intros H x Hx. apply firstn_In in Hx. auto.
Qed.

Lemma StronglySorted_refine {A} (R R' : A -> A -> Prop) (P : A -> Prop) l :
  (forall a z, P a -> P z -> R a z -> R' a z) ->
  Forall P l -> StronglySorted R l -> StronglySorted R' l.
Proof.
  intros Himp HP Hs. induction Hs as [|x l Hs IH Hall]; [constructor|].
  inversion HP; subst. constructor; [now apply IH|].
  rewrite Forall_forall in *. intros w Hw. apply Himp; auto.
Qed.

(** Equal elements keep their relative order: the elements of any one key
    appear in the sorted array as they do in the original. *)
Lemma toSorted_stable {A} (key : A -> Z) (c : A -> A -> number) l k :
  (forall a z, In a l -> In z l -> compare_result (c a z) = key z - key a) ->
  filter (fun x => key x =? k) (toSorted c l) = filter (fun x => key x =? k) l.
Proof.
  induction l as [|x l IH]; intros Hc; simpl; [reflexivity|].
  rewrite <- IH by (intros; apply Hc; now right).
  assert (Hx : forall y, In y (toSorted c l) ->
                         compare_result (c x y) = key y - key x).
  { intros y Hy. apply Hc; [now left | right; now apply toSorted_In in Hy]. }
  clear IH Hc. induction (toSorted c l) as [|y s IHs]; simpl; [reflexivity|].
  rewrite (Hx y (or_introl eq_refl)).
  destruct (0 <? key y - key x) eqn:E; simpl.
  - apply Z.ltb_lt in E. rewrite IHs by (intros; apply Hx; now right). simpl.
    destruct (key x =? k) eqn:Ex, (key y =? k) eqn:Ey; try reflexivity.
    apply Z.eqb_eq in Ex, Ey. lia.
  - reflexivity.
Qed.

(* --------------------------------------------------------------- *)
(** *** The derived views *)

Lemma getHighestRatedBooks_rated this :
  Forall (fun book => nullable_number_truthy (Book.rating book) = true)
         (getHighestRatedBooks this).
Proof.
  unfold getHighestRatedBooks, slice0.
  apply Forall_firstn, toSorted_Forall.
  rewrite Forall_forall. intros b Hb. now apply filter_In in Hb.
Qed.

(** C4. For every books list, [getHighestRatedBooks] returns at most 9 books,
    each of them one of the list's books with a non-null rating, in
    descending order of rating. *)
Theorem getHighestRatedBooks_spec (this : UserState) :
  (List.length (getHighestRatedBooks this) <= 9)%nat /\
  Forall (fun book => In book (allBooks this) /\ Book.rating book <> None)
         (getHighestRatedBooks this) /\
  StronglySorted rating_ge (getHighestRatedBooks this).
Proof.
  split; [apply firstn_le_length|]. split.
  - pose proof (getHighestRatedBooks_rated this) as Hr.
    rewrite Forall_forall in *. intros b Hb. split.
    + unfold getHighestRatedBooks, slice0 in Hb.
      apply firstn_In, toSorted_In, filter_In in Hb. tauto.
    + specialize (Hr b Hb). destruct (Book.rating b); [discriminate | discriminate].
  - apply StronglySorted_refine
      with (R := fun a z => rating_or_0 z <= rating_or_0 a)
           (P := fun book => nullable_number_truthy (Book.rating book) = true).
    + intros a z Ha Hz Hle. unfold rating_ge, rating_or_0 in *.
      destruct (Book.rating a) as [ra|]; [|discriminate].
      destruct (Book.rating z) as [rz|]; [|discriminate].
      now exists ra, rz.
    + apply getHighestRatedBooks_rated.
    + unfold getHighestRatedBooks, slice0.
      apply StronglySorted_firstn, toSorted_sorted.
      intros a z _ _. unfold rating_or_0.
      destruct (Book.rating a), (Book.rating z); reflexivity.
Qed.

(** C10. A book whose rating is exactly 0 is never among the books
    [getHighestRatedBooks] returns. *)
Theorem getHighestRatedBooks_excludes_zero (this : UserState) :
  Forall (fun book => Book.rating book <> Some 0) (getHighestRatedBooks this).
Proof.
  pose proof (getHighestRatedBooks_rated this) as Hr.
  rewrite Forall_forall in *. intros b Hb E. specialize (Hr b Hb).
  rewrite E in Hr. discriminate.
Qed.

Lemma getUnreadBooks_unread (Date_getTime : string -> number) this :
  Forall (fun book => In book (allBooks this) /\
                      nullable_string_truthy (Book.started_reading_on book) = false)
         (getUnreadBooks Date_getTime this).
Proof.
  unfold getUnreadBooks, slice0.
  apply Forall_firstn, toSorted_Forall.
  rewrite Forall_forall. intros b Hb. apply filter_In in Hb.
  destruct Hb as [Hin Hb]. apply negb_true_iff in Hb. now split.
Qed.

(** C5. For every books list, [getUnreadBooks] returns at most 9 books, each
    of them one of the list's books with no [started_reading_on] (null or
    the empty string), in descending order of [created_at] as soon as every
    [created_at] of the list denotes a date. *)
Theorem getUnreadBooks_spec (Date_getTime : string -> number) (this : UserState) :
  (List.length (getUnreadBooks Date_getTime this) <= 9)%nat /\
  Forall (fun book => In book (allBooks this) /\ not_started book)
         (getUnreadBooks Date_getTime this) /\
  ((forall book, In book (allBooks this) ->
                 exists t, Date_getTime (Book.created_at book) = Num t) ->
   StronglySorted (created_ge Date_getTime) (getUnreadBooks Date_getTime this)).
Proof.
  split; [apply firstn_le_length|]. split.
  - pose proof (getUnreadBooks_unread Date_getTime this) as Hu.
    rewrite Forall_forall in *. intros b Hb. destruct (Hu b Hb) as [Hin Hf].
    split; [assumption|]. unfold not_started.
    destruct (Book.started_reading_on b) as [[|c s]|]; auto; discriminate.
  - intros Hdates.
    set (key := fun book => compare_result (Date_getTime (Book.created_at book))).
    apply StronglySorted_refine
      with (R := fun a z => key z <= key a)
           (P := fun book => In book (allBooks this)).
    + intros a z Ha Hz Hle. unfold created_ge, key in *.
      destruct (Hdates a Ha) as [ta Eta], (Hdates z Hz) as [tz Etz].
      rewrite Eta, Etz in Hle. now exists ta, tz.
    + pose proof (getUnreadBooks_unread Date_getTime this) as Hu.
      rewrite Forall_forall in *. intros b Hb. now apply Hu.
    + unfold getUnreadBooks, slice0.
      apply StronglySorted_firstn, toSorted_sorted.
      intros a z Ha Hz. apply filter_In in Ha, Hz. unfold key.
      destruct (Hdates a (proj1 Ha)) as [ta ->], (Hdates z (proj1 Hz)) as [tz ->].
      reflexivity.
Qed.

(* --------------------------------------------------------------- *)
(** *** Refreshing and updating *)

Lemma fetchUserData_failure (url : string) be this u :
  user this = Some u -> fetch_fails be (User.id u) ->
  fetchUserData url be this = Normal this.
Proof.
  intros Hu Hf. unfold fetchUserData. rewrite Hu.
  destruct (supabase this); [|reflexivity].
  destruct Hf as [H|[H|[H|H]]];
    destruct (error (books_select be (User.id u))),
             (data (books_select be (User.id u))),
             (error (user_names_select be (User.id u))),
             (data (user_names_select be (User.id u)));
    try reflexivity; congruence.
Qed.

(** C1. Whatever the prior state and the identity passed in, when one of the
    two fetches of the refresh answers with an error or with no data, the
    books list and the display name are those of the prior state; only the
    identity fields are replaced. *)
Theorem updateState_failure_keeps_books_and_name
        (PUBLIC_SUPABASE_URL : string) (be : Backend) (props : UserStateProps.t) (this : UserState) :
  (forall u, UserStateProps.user props = Some u -> fetch_fails be (User.id u)) ->
  allBooks (updateState PUBLIC_SUPABASE_URL be props this) = allBooks this /\
  userName (updateState PUBLIC_SUPABASE_URL be props this) = userName this /\
  updateState PUBLIC_SUPABASE_URL be props this =
    mkUserState (UserStateProps.session props) (UserStateProps.supabase props)
                (UserStateProps.user props) (allBooks this) (userName this).
Proof.
  intros Hf.
  assert (E : updateState PUBLIC_SUPABASE_URL be props this =
              mkUserState (UserStateProps.session props) (UserStateProps.supabase props)
                          (UserStateProps.user props) (allBooks this) (userName this)).
  { unfold updateState.
    destruct (UserStateProps.user props) as [u|] eqn:Eu.
    - rewrite (fetchUserData_failure PUBLIC_SUPABASE_URL be _ u); [reflexivity | reflexivity | now apply Hf].
    - reflexivity. }
  rewrite E. auto.
Qed.

Lemma find_map_update (bookId : Z) (f : Book.t -> Book.t) (l : list Book.t) :
  (forall book, Book.id (f book) = Book.id book) ->
  find (fun book => Book.id book =? bookId) (map f l) =
  option_map f (find (fun book => Book.id book =? bookId) l).
Proof.
  intros Hid. induction l as [|b l IH]; simpl; [reflexivity|].
  rewrite Hid. destruct (Book.id b =? bookId); [reflexivity | exact IH].
Qed.

(** C2. When the list holds a book with id [bookId] and the service answers
    [updateBook bookId {rating: 5}] with status 204 and no error, the book
    found under [bookId] afterwards is the one found before with its rating
    set to 5 and every other field as it was; every book with another id
    stays in place unchanged, and so do the other fields of the state. *)
Theorem updateBook_rating_success
        (be : Backend) (bookId : Z) (this : UserState)
        (client : SupabaseClient.t) (book : Book.t) :
  supabase this = Some client ->
  status (books_update be (rating_update 5) bookId) = 204 ->
  error (books_update be (rating_update 5) bookId) = None ->
  getBookById bookId this = Some book ->
  exists this',
    updateBook be bookId (rating_update 5) this = Normal this' /\
    getBookById bookId this' =
      Some (Book.mk (Book.author book) (Book.cover_image book) (Book.created_at book)
                    (Book.description book) (Book.finished_reading_on book)
                    (Book.genre book) (Book.id book) (Some 5)
                    (Book.started_reading_on book) (Book.title book)
                    (Book.user_id book)) /\
    List.length (allBooks this') = List.length (allBooks this) /\
    (forall i other,
        nth_error (allBooks this) i = Some other -> Book.id other <> bookId ->
        nth_error (allBooks this') i = Some other) /\
    session this' = session this /\ supabase this' = supabase this /\
    user this' = user this /\ userName this' = userName this.
Proof.
  intros Hc Hs He Hfind.
  eexists. split.
  { unfold updateBook. rewrite Hc, Hs, He. simpl. reflexivity. }
  simpl. split; [|split; [|split; [|auto]]].
  - unfold getBookById, array_find in *. simpl.
    rewrite find_map_update.
    + rewrite Hfind. simpl.
      apply find_some in Hfind. destruct Hfind as [_ Hid]. rewrite Hid.
      reflexivity.
    + intros b. destruct (Book.id b =? bookId); reflexivity.
  - apply length_map.
  - intros i other Hnth Hne. rewrite nth_error_map, Hnth. simpl.
    destruct (Book.id other =? bookId) eqn:E; [|reflexivity].
    apply Z.eqb_eq in E. contradiction.
Qed.

(** C3. Whatever the list and the partial update, when the service's answer
    is anything but status 204 with no error, the promise of [updateBook]
    is fulfilled, not rejected, and the state, the books list with it, is
    the one before the call. *)
Theorem updateBook_failure_noop
        (be : Backend) (bookId : Z) (updateObject : UpdatableBookFields.partial)
        (this : UserState) :
  ~ (status (books_update be updateObject bookId) = 204 /\
     error (books_update be updateObject bookId) = None) ->
  updateBook be bookId updateObject this = Normal this /\
  (forall this', updateBook be bookId updateObject this = Normal this' ->
                 allBooks this' = allBooks this).
Proof.
  intros Hrej.
  assert (E : updateBook be bookId updateObject this = Normal this).
  { unfold updateBook. destruct (supabase this); [|reflexivity].
    destruct (status (books_update be updateObject bookId) =? 204) eqn:Es;
      [|reflexivity].
    destruct (error (books_update be updateObject bookId)) eqn:Ee; [reflexivity|].
    apply Z.eqb_eq in Es. exfalso. apply Hrej. now split. }
  split; [exact E|]. intros this' E'. rewrite E in E'. now inversion E'.
Qed.


Lemma owned_map (f : Book.t -> Book.t) (this : UserState) :
  (forall book, Book.user_id (f book) = Book.user_id book) ->
  books_owned_by_user this ->
  books_owned_by_user (set_allBooks this (map f (allBooks this))).
Proof.
  intros Hf Hown b Hb. simpl in *. apply in_map_iff in Hb.
  destruct Hb as [b0 [<- Hb0]]. rewrite Hf. now apply Hown.
Qed.

(** What a refresh does: it installs the rows and the name it fetched, or
    it keeps the books and the name it found. *)
Lemma updateState_cases (url : string) be props this :
  (exists u books row,
      UserStateProps.user props = Some u /\
      data (books_select be (User.id u)) = Some books /\
      updateState url be props this =
        mkUserState (UserStateProps.session props) (UserStateProps.supabase props)
                    (Some u)
                    (map (sign_cover_image url be
                            (mkUserState (UserStateProps.session props)
                                         (UserStateProps.supabase props)
                                         (Some u) (allBooks this) (userName this)))
                         books)
                    (Some (UserNameRow.name row))) \/
  updateState url be props this =
    mkUserState (UserStateProps.session props) (UserStateProps.supabase props)
                (UserStateProps.user props) (allBooks this) (userName this).
Proof.
  unfold updateState, fetchUserData. simpl.
  destruct (UserStateProps.user props) as [u|]; [|now right].
  destruct (UserStateProps.supabase props) as [c|]; [|now right].
  destruct (error (books_select be (User.id u))); [now right|].
  destruct (data (books_select be (User.id u))) as [books|] eqn:Eb; [|now right].
  destruct (error (user_names_select be (User.id u))); [now right|].
  destruct (data (user_names_select be (User.id u))) as [row|]; [|now right].
  left. exists u, books, row. auto.
Qed.







(* --------------------------------------------------------------- *)
(** *** The functions are runs of the steps *)

Lemma fetchUserData_is_a_run (url : string) be this :
  honours_filter be ->
  exists this',
    fetchUserData url be this = Normal this' /\
    steps url {| current := this; pending := start_fetchUserData this |}
              {| current := this'; pending := [] |}.
Proof.
  intros Hh. unfold fetchUserData, start_fetchUserData.
  destruct (user this) as [u|]; [|eexists; split; [reflexivity | constructor]].
  destruct (supabase this) as [cl|]; [|eexists; split; [reflexivity | constructor]].
  pose proof (step_resume url be (AwaitFetch (User.id u)) [] []
                {| current := this; pending := [AwaitFetch (User.id u)] |}
                Hh eq_refl) as S1.
  cbn [current resume pending] in S1.
  destruct (error (books_select be (User.id u)));
    [eexists; split; [reflexivity | eapply steps_next; [exact S1 | constructor]]|].
  destruct (data (books_select be (User.id u))) as [rows|];
    [|eexists; split; [reflexivity | eapply steps_next; [exact S1 | constructor]]].
  destruct (error (user_names_select be (User.id u)));
    [eexists; split; [reflexivity | eapply steps_next; [exact S1 | constructor]]|].
  destruct (data (user_names_select be (User.id u))) as [row|];
    [|eexists; split; [reflexivity | eapply steps_next; [exact S1 | constructor]]].
  eexists. split; [reflexivity|].
  eapply steps_next; [exact S1|].
  eapply steps_next; [|apply steps_done].
  exact (step_resume url be
           (AwaitSignedCovers (User.id u) (map (sign_cover_image url be this) rows)
                              (UserNameRow.name row))
           [] []
           {| current := this;
              pending := [AwaitSignedCovers (User.id u)
                            (map (sign_cover_image url be this) rows)
                            (UserNameRow.name row)] |}
           Hh eq_refl).
Qed.

(** [updateState], as a function, is the call followed by its fetch resumed
    to its end with nothing in between. *)
Lemma updateState_is_a_run (url : string) be props this :
  honours_filter be ->
  steps url {| current := this; pending := [] |}
            {| current := updateState url be props this; pending := [] |}.
Proof.
  intros Hh. eapply steps_next; [apply step_updateState|].
  cbn [current pending app fst snd start_updateState].
  unfold updateState.
  destruct (fetchUserData_is_a_run url be
              (mkUserState (UserStateProps.session props) (UserStateProps.supabase props)
                           (UserStateProps.user props) (allBooks this) (userName this))
              Hh) as (this' & E & Hrun).
  rewrite E. exact Hrun.
Qed.

(** [updateBook], as a function, is the call resumed at once. *)
Lemma updateBook_is_a_run (url : string) be bookId updateObject this :
  honours_filter be ->
  exists this',
    updateBook be bookId updateObject this = Normal this' /\
    steps url {| current := this; pending := [] |}
              {| current := this'; pending := [] |}.
Proof.
  intros Hh. unfold updateBook.
  pose proof (step_updateBook url bookId updateObject
                {| current := this; pending := [] |}) as S0.
  cbn [current pending app] in S0. unfold start_updateBook in S0.
  destruct (supabase this) as [cl|];
    [|eexists; split; [reflexivity | eapply steps_next; [exact S0 | constructor]]].
  pose proof (step_resume url be (AwaitUpdate bookId updateObject) [] []
                {| current := this; pending := [AwaitUpdate bookId updateObject] |}
                Hh eq_refl) as S1.
  cbn [current resume pending] in S1.
  destruct (_ && _); eexists; (split; [reflexivity|]);
    (eapply steps_next; [exact S0|]); (eapply steps_next; [exact S1|]); constructor.
Qed.

(** [uploadBookCover], as a function, is the call resumed three times at
    once. *)
Lemma uploadBookCover_is_a_run (url : string) be file bookId this :
  honours_filter be ->
  exists this',
    uploadBookCover be file bookId this = Normal this' /\
    steps url {| current := this; pending := [] |}
              {| current := this'; pending := [] |}.
Proof.
  intros Hh. unfold uploadBookCover.
  pose proof (step_uploadBookCover url file bookId
                {| current := this; pending := [] |}) as S0.
  cbn [current pending app] in S0. unfold start_uploadBookCover in S0.
  destruct (user this) as [u|];
    [|eexists; split; [reflexivity | eapply steps_next; [exact S0 | constructor]]].
  destruct (supabase this) as [cl|] eqn:Ecl;
    [|eexists; split; [reflexivity | eapply steps_next; [exact S0 | constructor]]].
  set (filePath := User.id u ++ "/" ++ File.name file) in *.
  pose proof (step_resume url be (AwaitUpload filePath file bookId) [] []
                {| current := this; pending := [AwaitUpload filePath file bookId] |}
                Hh eq_refl) as S1.
  cbn [current resume pending] in S1. rewrite Ecl in S1.
  destruct (error (covers_upload be filePath file)).
  { eexists; split; [reflexivity|].
    eapply steps_next; [exact S0|]. eapply steps_next; [exact S1|]. constructor. }
  pose proof (step_resume url be
                (AwaitCoverUpdate filePath (covers_getPublicUrl be filePath) bookId) [] []
                {| current := this;
                   pending := [AwaitCoverUpdate filePath
                                 (covers_getPublicUrl be filePath) bookId] |}
                Hh eq_refl) as S2.
  cbn [current resume pending] in S2. rewrite Ecl in S2.
  destruct (_ || _).
  { eexists; split; [reflexivity|].
    eapply steps_next; [exact S0|]. eapply steps_next; [exact S1|].
    eapply steps_next; [exact S2|]. constructor. }
  pose proof (step_resume url be (AwaitCoverSigned filePath bookId) [] []
                {| current := this; pending := [AwaitCoverSigned filePath bookId] |}
                Hh eq_refl) as S3.
  cbn [current resume pending] in S3.
  destruct (data (covers_createSignedUrl be (Some filePath) 3600)) as [d|];
    [destruct (nullable_string_truthy (Some (SignedUrl.signedUrl d)))|];
    (eexists; split; [reflexivity|]);
    (eapply steps_next; [exact S0|]); (eapply steps_next; [exact S1|]);
    (eapply steps_next; [exact S2|]); (eapply steps_next; [exact S3|]); constructor.
Qed.

(* --------------------------------------------------------------- *)
(** *** Strings *)

Lemma prefix_spec (p s : string) :
  String.prefix p s = true <-> exists post, s = p ++ post.
Proof.
  revert s; induction p as [|c p IH]; intros s.
  - split; [intros _; now exists s | intros _; destruct s; reflexivity].
  - destruct s as [|d s]; simpl.
    + split; [discriminate | intros [post H]; discriminate].
    + destruct (ascii_dec c d) as [->|Hne].
      * rewrite IH. split; intros [post H]; exists post; congruence.
      * split; [discriminate | intros [post H]; congruence].
Qed.

Lemma includes_spec (s sub : string) :
  includes s sub = true <-> substring_of sub s.
Proof.
  unfold substring_of. split.
  - induction s as [|c r IH]; cbn [includes].
    + intros H. apply prefix_spec in H. destruct H as [post H]. now exists "", post.
    + intros H. apply orb_true_iff in H. destruct H as [H|H].
      * apply prefix_spec in H. destruct H as [post H]. now exists "", post.
      * destruct (IH H) as (pre & post & ->). now exists (String c pre), post.
  - intros (pre & post & ->). induction pre as [|c pre IH].
    + assert (Hp : String.prefix sub (sub ++ post) = true)
        by (apply prefix_spec; now exists post).
      change ("" ++ sub ++ post) with (sub ++ post).
      destruct (sub ++ post); cbn [includes]; [assumption | now rewrite Hp].
    + change (String c pre ++ sub ++ post) with (String c (pre ++ sub ++ post)).
      cbn [includes]. rewrite IH. apply orb_true_r.
Qed.

Lemma concat_cons_char (sep : string) (c : ascii) (seg : string) (segs : list string) :
  String.concat sep (String c seg :: segs) = String c (String.concat sep (seg :: segs)).
Proof. destruct segs; reflexivity. Qed.

Lemma split_scan_skip (sep u rest : string) :
  split_scan sep (String.length u) (u ++ rest) = split_scan sep 0 rest.
Proof. induction u as [|c u IH]; simpl; [reflexivity | exact IH]. Qed.

Lemma string_length_append (u v : string) :
  String.length (u ++ v) = (String.length u + String.length v)%nat.
Proof. induction u as [|c u IH]; simpl; [reflexivity | now rewrite IH]. Qed.

Lemma split_scan_join (sep : string) (n : nat) :
  sep <> "" ->
  forall s, (String.length s <= n)%nat ->
    String.concat sep (fst (split_scan sep 0 s) :: snd (split_scan sep 0 s)) = s.
Proof.
  intros Hsep. induction n as [|n IH]; intros s Hlen.
  - destruct s; [reflexivity | simpl in Hlen; lia].
  - destruct s as [|c r]; [reflexivity|].
    cbn [split_scan]. destruct (String.prefix sep (String c r)) eqn:Ep.
    + apply prefix_spec in Ep. destruct Ep as [rest Er].
      destruct sep as [|d sep']; [congruence|].
      simpl in Er. inversion Er; subst d r.
      cbn [String.length Nat.pred]. rewrite split_scan_skip.
      assert (Hrest : (String.length rest <= n)%nat).
      { simpl in Hlen. rewrite string_length_append in Hlen. lia. }
      specialize (IH rest Hrest).
      destruct (split_scan (String c sep') 0 rest) as [seg segs].
      cbn [fst snd] in *.
      change (String.concat (String c sep') ("" :: seg :: segs))
        with ("" ++ String c sep' ++ String.concat (String c sep') (seg :: segs)).
      rewrite IH. reflexivity.
    + assert (Hr : (String.length r <= n)%nat) by (simpl in Hlen; lia).
      specialize (IH r Hr).
      destruct (split_scan sep 0 r) as [seg segs]. cbn [fst snd] in *.
      rewrite concat_cons_char, IH. reflexivity.
Qed.

(** Joining the segments of [s.split(sep)] with [sep] gives [s] back. *)
Lemma split_join (s sep : string) :
  sep <> "" -> String.concat sep (split s sep) = s.
Proof.
  intros Hsep. unfold split. destruct sep as [|d sep']; [congruence|].
  pose proof (split_scan_join (String d sep') (String.length s) Hsep s (le_n _)) as H.
  destruct (split_scan (String d sep') 0 s). exact H.
Qed.

Lemma all_white_space_cons (c : ascii) (s : string) :
  is_white_space c = true -> all_white_space s -> all_white_space (String c s).
Proof. intros Hc Hs. unfold all_white_space in *. simpl. now constructor. Qed.

Lemma all_white_space_empty : all_white_space "".
Proof. constructor. Qed.

Lemma trimStart_spec (s : string) :
  exists l, s = l ++ trimStart s /\ all_white_space l /\
            (forall c r, trimStart s = String c r -> is_white_space c = false).
Proof.
  induction s as [|c s (l & E & Hl & Hc)]; cbn [trimStart].
  - exists "". split; [reflexivity|]. split; [apply all_white_space_empty|].
    discriminate.
  - destruct (is_white_space c) eqn:Ew.
    + exists (String c l). split; [simpl; now rewrite <- E|].
      split; [now apply all_white_space_cons | exact Hc].
    + exists "". split; [reflexivity|]. split; [apply all_white_space_empty|].
      intros c' r' H. inversion H. now subst.
Qed.

Lemma trimEnd_spec (s : string) :
  exists r, s = trimEnd s ++ r /\ all_white_space r /\
            (forall p c, trimEnd s = p ++ String c "" -> is_white_space c = false).
Proof.
  induction s as [|c s (r & E & Hr & Hc)]; cbn [trimEnd].
  - exists "". split; [reflexivity|]. split; [apply all_white_space_empty|].
    intros [|d p] c H; discriminate.
  - destruct (trimEnd s) as [|d t] eqn:Et.
    + simpl in E. subst r. destruct (is_white_space c) eqn:Ew.
      * exists (String c s). split; [reflexivity|].
        split; [now apply all_white_space_cons|].
        intros [|d p] c' H; discriminate.
      * exists s. split; [reflexivity|]. split; [exact Hr|].
        intros [|d p] c' H; simpl in H; inversion H; subst; [assumption|].
        destruct p; discriminate.
    + exists r. split; [simpl; now rewrite E|]. split; [exact Hr|].
      intros [|e p] c' H; simpl in H; inversion H; subst.
      now apply (Hc p c').
Qed.

(** [s.trim()] is [s] without the white space at its two ends. *)
Lemma trim_spec (s : string) :
  exists l r,
    s = l ++ trim s ++ r /\ all_white_space l /\ all_white_space r /\
    (forall c t, trim s = String c t -> is_white_space c = false) /\
    (forall p c, trim s = p ++ String c "" -> is_white_space c = false).
Proof.
  destruct (trimStart_spec s) as (l & El & Hl & Hfirst).
  destruct (trimEnd_spec (trimStart s)) as (r & Er & Hr & Hlast).
  exists l, r. unfold trim.
  split; [rewrite <- Er; exact El|]. split; [exact Hl|]. split; [exact Hr|].
  split; [|exact Hlast].
  intros c t H. apply (Hfirst c (t ++ r)). rewrite Er, H. reflexivity.
Qed.

Lemma string_mem_In (k : string) (l : list string) :
  string_mem k l = true <-> In k l.
Proof.
  unfold string_mem. rewrite existsb_exists. split.
  - intros (x & Hx & E). apply String.eqb_eq in E. now subst.
  - intros H. exists k. split; [assumption | apply String.eqb_refl].
Qed.

Lemma string_mem_app (k : string) (l l' : list string) :
  string_mem k (l ++ l')%list = string_mem k l || string_mem k l'.
Proof. apply existsb_app. Qed.

(* --------------------------------------------------------------- *)
(** *** The table of genre counts *)

Lemma own_lookup_store (k t : string) (n : number) (o : JsObject) :
  own_lookup k (own_store t n o) =
  if String.eqb k t then Some n else own_lookup k o.
Proof.
  induction o as [|[k' n'] o IH]; simpl.
  - destruct (String.eqb k t); reflexivity.
  - destruct (String.eqb t k') eqn:Et; simpl.
    + apply String.eqb_eq in Et. subst k'.
      destruct (String.eqb k t); reflexivity.
    + destruct (String.eqb k k') eqn:Ek; [|exact IH].
      apply String.eqb_eq in Ek. subst k'.
      rewrite String.eqb_sym, Et. reflexivity.
Qed.

Lemma own_store_keys (t : string) (n : number) (o : JsObject) :
  map fst (own_store t n o) =
  if string_mem t (map fst o) then map fst o else (map fst o ++ [t])%list.
Proof.
  induction o as [|[k' n'] o IH]; simpl; [reflexivity|].
  destruct (String.eqb t k') eqn:Et; simpl; [reflexivity|].
  rewrite IH. unfold string_mem. destruct (existsb _ _); reflexivity.
Qed.

Lemma own_lookup_keys (k : string) (o : JsObject) :
  own_lookup k o = None <-> string_mem k (map fst o) = false.
Proof.
  induction o as [|[k' n'] o IH]; simpl; [tauto|].
  destruct (String.eqb k k'); simpl; [split; discriminate | exact IH].
Qed.

Lemma count_genres_tokens (genres : list string) (o : JsObject) :
  fold_left count_genre genres o =
  fold_left count_token
            (filter (fun t => nullable_string_truthy (Some t)) (map trim genres)) o.
Proof.
  revert o; induction genres as [|g genres IH]; intros o; [reflexivity|].
  cbn [fold_left map filter]. rewrite IH. unfold count_genre.
  destruct (nullable_string_truthy (Some (trim g))); reflexivity.
Qed.

Lemma count_book_genres_tokens (o : JsObject) (book : Book.t) :
  count_book_genres o book = fold_left count_token (book_tokens book) o.
Proof.
  unfold count_book_genres, book_tokens.
  destruct (Book.genre book) as [g|]; [|reflexivity].
  destruct g as [|c g]; [reflexivity|].
  apply count_genres_tokens.
Qed.

Lemma genreCounts_of_tokens (books : list Book.t) :
  genreCounts_of books = fold_left count_token (all_tokens books) [].
Proof.
  unfold genreCounts_of, all_tokens. generalize (@nil (string * number)).
  induction books as [|b books IH]; intros o; simpl; [reflexivity|].
  rewrite fold_left_app, IH, count_book_genres_tokens. reflexivity.
Qed.

Lemma occurrences_snoc (k t : string) (l : list string) :
  occurrences k (l ++ [t])%list =
  occurrences k l + (if String.eqb k t then 1 else 0).
Proof.
  unfold occurrences. rewrite count_occ_app. simpl.
  destruct (string_dec t k) as [->|Hne].
  - rewrite String.eqb_refl. lia.
  - destruct (String.eqb k t) eqn:E; [|lia].
    apply String.eqb_eq in E. congruence.
Qed.

Lemma occurrences_pos (k : string) (l : list string) :
  In k l -> 0 < occurrences k l.
Proof.
  intros H. unfold occurrences.
  apply (count_occ_In string_dec) in H. lia.
Qed.

Lemma first_seen_In (k : string) (l : list string) :
  In k (first_seen l) <-> In k l.
Proof.
  induction l as [|t l IH]; simpl; [tauto|].
  rewrite filter_In, IH. split.
  - intros [H|[H _]]; auto.
  - intros [H|H]; [now left|].
    destruct (string_dec t k) as [E|Hne]; [now left|]. right. split; [assumption|].
    apply negb_true_iff, String.eqb_neq. congruence.
Qed.

Lemma first_seen_snoc (t : string) (l : list string) :
  first_seen (l ++ [t])%list =
  if string_mem t l then first_seen l else (first_seen l ++ [t])%list.
Proof.
  induction l as [|a l IH]; simpl; [reflexivity|].
  rewrite IH. destruct (String.eqb t a) eqn:E; simpl.
  - apply String.eqb_eq in E. subst a.
    destruct (string_mem t l); [reflexivity|].
    rewrite filter_app. simpl. rewrite String.eqb_refl. simpl.
    now rewrite app_nil_r.
  - destruct (string_mem t l); [reflexivity|].
    rewrite filter_app. simpl. rewrite E. reflexivity.
Qed.

(** The table after counting the tokens [l], none of them the name of a
    property of [Object.prototype]: its keys are the distinct tokens in
    first-seen order, each with its number of occurrences. *)
Lemma count_tokens_table (l : list string) :
  Forall (fun t => ~ In t Object_prototype_keys) l ->
  let o := fold_left count_token l [] in
  map fst o = first_seen l /\
  forall k, own_lookup k o =
            if string_mem k l then Some (Num (occurrences k l)) else None.
Proof.
  induction l as [|t l IH] using rev_ind; intros Hp; simpl.
  - split; [reflexivity | intros k; reflexivity].
  - apply Forall_app in Hp. destruct Hp as [Hl Ht].
    inversion Ht as [|? ? Hnp _]; subst.
    destruct (IH Hl) as [Hkeys Hval]. clear IH.
    rewrite fold_left_app. simpl.
    set (o := fold_left count_token l []) in *.
    assert (Hproto : string_mem t Object_prototype_keys = false).
    { destruct (string_mem t Object_prototype_keys) eqn:E; [|reflexivity].
      apply string_mem_In in E. contradiction. }
    assert (Hset : forall n, object_set o t n = own_store t n o).
    { intros n. unfold object_set.
      destruct (String.eqb t "__proto__") eqn:E; [|reflexivity].
      apply String.eqb_eq in E. subst t. exfalso. apply Hnp. simpl. tauto. }
    assert (Hin : string_mem t (map fst o) = string_mem t l).
    { rewrite Hkeys. destruct (string_mem t l) eqn:E.
      - apply string_mem_In, first_seen_In, string_mem_In. exact E.
      - destruct (string_mem t (first_seen l)) eqn:E'; [|reflexivity].
        apply (proj1 (string_mem_In _ _)) in E'.
        apply (proj1 (first_seen_In _ _)) in E'.
        apply (proj2 (string_mem_In _ _)) in E'. congruence. }
    unfold count_token, object_get. rewrite (Hval t), Hproto, !Hset.
    destruct (string_mem t l) eqn:Et; simpl.
    + assert (Hpos : 0 < occurrences t l)
        by (apply occurrences_pos, string_mem_In; exact Et).
      destruct (occurrences t l =? 0) eqn:Ez; [apply Z.eqb_eq in Ez; lia|]. simpl.
      split.
      * rewrite own_store_keys, Hin, first_seen_snoc, Et. exact Hkeys.
      * intros k. rewrite own_lookup_store, Hval, string_mem_app, occurrences_snoc.
        simpl. destruct (String.eqb k t) eqn:Ek.
        -- apply String.eqb_eq in Ek. subst k. rewrite Et. reflexivity.
        -- rewrite orb_false_r, Z.add_0_r. reflexivity.
    + split.
      * rewrite own_store_keys, Hin, first_seen_snoc, Et, Hkeys. reflexivity.
      * intros k. rewrite own_lookup_store, Hval, string_mem_app, occurrences_snoc.
        simpl. destruct (String.eqb k t) eqn:Ek.
        -- apply String.eqb_eq in Ek. subst k. rewrite Et. simpl.
           assert (E0 : occurrences t l = 0).
           { unfold occurrences.
             rewrite (proj1 (count_occ_not_In string_dec l t)); [reflexivity|].
             intros Hc. apply string_mem_In in Hc. congruence. }
           rewrite E0. reflexivity.
        -- rewrite orb_false_r, Z.add_0_r. reflexivity.
Qed.

Lemma own_property_order_In (k : string) (l : list string) :
  In k (own_property_order l) <-> In k l.
Proof.
  unfold own_property_order. rewrite in_app_iff, toSorted_In, !filter_In.
  destruct (is_array_index k); simpl; intuition congruence.
Qed.

Lemma own_property_order_plain (l : list string) :
  Forall (fun k => is_array_index k = false) l -> own_property_order l = l.
Proof.
  intros H. unfold own_property_order.
  assert (E1 : filter is_array_index l = []).
  { induction H as [|k l Hk _ IH]; cbn [filter]; [reflexivity|]. now rewrite Hk. }
  assert (E2 : filter (fun k => negb (is_array_index k)) l = l).
  { clear E1. induction H as [|k l Hk _ IH]; cbn [filter]; [reflexivity|].
    rewrite Hk. cbn [negb]. now rewrite IH. }
  rewrite E1, E2. reflexivity.
Qed.

Lemma listed_key_In (k : string) (l : list string) :
  In k (own_property_order (first_seen l)) <-> In k l.
Proof. rewrite own_property_order_In. apply first_seen_In. Qed.

(** The callback of [reduce] keeps the accumulator only when its count is
    strictly greater: the result is the last key of highest count. *)
Lemma reduce_last_max (v : string -> number) (cnt : string -> Z) (ks : list string) :
  forall all before a after,
    all = (before ++ a :: after ++ ks)%list ->
    (forall k, In k all -> v k = Num (cnt k)) ->
    Forall (fun t => cnt t <= cnt a) before ->
    Forall (fun t => cnt t < cnt a) after ->
    let g := fold_left (fun a b => if number_gt (v a) (v b) then a else b) ks a in
    exists before' after',
      all = (before' ++ g :: after')%list /\
      Forall (fun t => cnt t <= cnt g) before' /\
      Forall (fun t => cnt t < cnt g) after'.
Proof.
  induction ks as [|b ks IH]; intros all before a after Eall Hv Hb Ha; simpl.
  - exists before, after. rewrite app_nil_r in Eall. auto.
  - assert (Eva : v a = Num (cnt a)).
    { apply Hv. subst all. apply in_or_app. right. now left. }
    assert (Evb : v b = Num (cnt b)).
    { apply Hv. subst all. apply in_or_app. right. right. apply in_or_app.
      right. now left. }
    rewrite Eva, Evb. simpl. destruct (cnt b <? cnt a) eqn:E.
    + apply Z.ltb_lt in E. apply (IH all before a (after ++ [b])%list); auto.
      * rewrite <- app_assoc. exact Eall.
      * apply Forall_app. split; [assumption | now constructor].
    + apply Z.ltb_ge in E. apply (IH all (before ++ a :: after)%list b []); auto.
      * rewrite <- app_assoc. exact Eall.
      * apply Forall_app. split.
        -- eapply Forall_impl; [|exact Hb]. simpl. intros; lia.
        -- constructor; [lia|]. eapply Forall_impl; [|exact Ha]. simpl. intros; lia.
Qed.

Lemma or_empty_string (g : string) :
  (if nullable_string_truthy (Some g) then g else "") = g.
Proof. destruct g; reflexivity. Qed.

(** The key-value reading of the table during [reduce]. *)
Lemma counted_value (l : list string) (k : string) :
  Forall (fun t => ~ In t Object_prototype_keys) l -> In k l ->
  value_to_number (object_get (fold_left count_token l []) k) =
  Num (occurrences k l).
Proof.
  intros Hp Hk. destruct (count_tokens_table l Hp) as [_ Hval].
  unfold object_get. rewrite Hval.
  apply (proj2 (string_mem_In _ _)) in Hk. rewrite Hk. reflexivity.
Qed.

(* --------------------------------------------------------------- *)
(** *** The favorite genre *)

(** C6, as amended. [getFavoriteGenre] returns the empty string on an empty
    books list and "Sci-Fi" on books of genres "Sci-Fi, Drama" and "Sci-Fi".
    When the books yield a non-empty trimmed token, none of them the name of
    a property of [Object.prototype], it returns one of the tokens of highest
    count, namely the one that [Object.keys] lists last among them: every key
    listed after it has a strictly smaller count.  [Object.keys] lists the
    distinct tokens in first-seen order when none of them is an array index,
    so that among tokens of equal highest count the last first-seen wins. *)
Theorem getFavoriteGenre_spec :
  (forall this, allBooks this = [] -> getFavoriteGenre this = Normal "") /\
  (forall this b1 b2,
      allBooks this = [b1; b2] ->
      Book.genre b1 = Some "Sci-Fi, Drama" -> Book.genre b2 = Some "Sci-Fi" ->
      getFavoriteGenre this = Normal "Sci-Fi") /\
  (forall this,
      all_tokens (allBooks this) <> [] ->
      Forall (fun t => ~ In t Object_prototype_keys) (all_tokens (allBooks this)) ->
      exists g before after,
        getFavoriteGenre this = Normal g /\
        In g (all_tokens (allBooks this)) /\
        (forall t, In t (all_tokens (allBooks this)) ->
                   occurrences t (all_tokens (allBooks this))
                   <= occurrences g (all_tokens (allBooks this))) /\
        own_property_order (first_seen (all_tokens (allBooks this)))
        = (before ++ g :: after)%list /\
        Forall (fun t => occurrences t (all_tokens (allBooks this))
                         < occurrences g (all_tokens (allBooks this))) after) /\
  (forall this,
      Forall (fun t => is_array_index t = false) (all_tokens (allBooks this)) ->
      own_property_order (first_seen (all_tokens (allBooks this)))
      = first_seen (all_tokens (allBooks this))).
Proof.
  split; [|split; [|split]].
  - intros this E. unfold getFavoriteGenre. now rewrite E.
  - intros this b1 b2 E E1 E2. unfold getFavoriteGenre. rewrite E.
    rewrite genreCounts_of_tokens. unfold all_tokens. cbn [flat_map].
    unfold book_tokens. rewrite E1, E2. vm_compute. reflexivity.
  - intros this Hne Hp. unfold getFavoriteGenre.
    destruct (allBooks this) as [|b0 books] eqn:Eb; [now elim Hne|].
    rewrite genreCounts_of_tokens.
    set (toks := all_tokens (b0 :: books)) in *.
    destruct (count_tokens_table toks Hp) as [Hkeys _].
    unfold Object_keys. rewrite Hkeys.
    destruct (own_property_order (first_seen toks)) as [|k0 ks] eqn:Eo.
    { exfalso. destruct toks as [|t toks']; [now apply Hne|].
      assert (Hin : In t (own_property_order (first_seen (t :: toks'))))
        by (apply (proj2 (listed_key_In _ _)); now left).
      rewrite Eo in Hin. exact Hin. }
    assert (Hsub : forall k, In k (k0 :: ks) -> In k toks).
    { intros k Hk. rewrite <- Eo in Hk. exact (proj1 (listed_key_In _ _) Hk). }
    destruct (reduce_last_max
                (fun k => value_to_number (object_get (fold_left count_token toks []) k))
                (fun k => occurrences k toks) ks (k0 :: ks) [] k0 [])
      as (before & after & Eall & Hbefore & Hafter); auto.
    { intros k Hk. apply counted_value; auto. }
    cbn [reduce]. rewrite or_empty_string.
    set (g := fold_left _ ks k0) in *.
    exists g, before, after. split; [reflexivity|].
    assert (Hg : In g (k0 :: ks)) by (rewrite Eall; apply in_or_app; right; now left).
    split; [now apply Hsub|]. split; [|split; [exact Eall | exact Hafter]].
    intros t Ht.
    assert (Ht' : In t (k0 :: ks)).
    { rewrite <- Eo. exact (proj2 (listed_key_In _ _) Ht). }
    rewrite Eall in Ht'. apply in_app_or in Ht'.
    rewrite Forall_forall in Hbefore, Hafter.
    destruct Ht' as [Ht'|[<-|Ht']]; [now apply Hbefore | lia |].
    specialize (Hafter t Ht'). simpl in Hafter. lia.
  - intros this H. apply own_property_order_plain.
    rewrite Forall_forall in *. intros k Hk. apply H.
    exact (proj1 (first_seen_In _ _) Hk).
Qed.

(** C9. A non-empty books list none of whose books yields a non-empty trimmed
    genre token makes [getFavoriteGenre] throw the TypeError of a [reduce]
    over an empty array with no initial value; the list of a book with no
    genre, one with an empty genre and one whose genre is commas and blanks
    is such a list. *)
Theorem getFavoriteGenre_throws_without_tokens :
  (forall this,
      allBooks this <> [] -> all_tokens (allBooks this) = [] ->
      getFavoriteGenre this =
        Throw (TypeError "Reduce of empty array with no initial value")) /\
  (exists this,
      allBooks this <> [] /\ all_tokens (allBooks this) = [] /\
      getFavoriteGenre this =
        Throw (TypeError "Reduce of empty array with no initial value")).
Proof.
  assert (H : forall this,
             allBooks this <> [] -> all_tokens (allBooks this) = [] ->
             getFavoriteGenre this =
               Throw (TypeError "Reduce of empty array with no initial value")).
  { intros this Hne Htoks. unfold getFavoriteGenre.
    destruct (allBooks this) as [|b0 books] eqn:Eb; [now elim Hne|].
    rewrite genreCounts_of_tokens, Htoks. reflexivity. }
  split; [exact H|].
  exists (state_of_books no_genres).
  assert (Hne : allBooks (state_of_books no_genres) <> []) by discriminate.
  split; [exact Hne|]. split; [reflexivity|]. apply H; [exact Hne | reflexivity].
Qed.

Lemma own_store_keys_In (k t : string) (n : number) (o : JsObject) :
  In k (map fst (own_store t n o)) <-> k = t \/ In k (map fst o).
Proof.
  rewrite own_store_keys. destruct (string_mem t (map fst o)) eqn:E.
  - apply (proj1 (string_mem_In _ _)) in E. split; [auto|].
    intros [->|H]; assumption.
  - rewrite in_app_iff. simpl. intuition congruence.
Qed.

Lemma count_token_keeps_keys (o : JsObject) (t k : string) :
  In k (map fst o) -> In k (map fst (count_token o t)).
Proof.
  intros H. unfold count_token, object_set.
  destruct (negb _), (String.eqb t "__proto__"); try assumption;
    apply own_store_keys_In; now right.
Qed.

Lemma count_token_adds_key (o : JsObject) (t : string) :
  t <> "__proto__" -> In t (map fst (count_token o t)).
Proof.
  intros H. apply String.eqb_neq in H. unfold count_token, object_set.
  rewrite H. destruct (negb _); apply own_store_keys_In; now left.
Qed.

Lemma count_tokens_keep_keys (l : list string) (o : JsObject) (k : string) :
  In k (map fst o) -> In k (map fst (fold_left count_token l o)).
Proof.
  revert o; induction l as [|a l IH]; intros o H; simpl; [assumption|].
  apply IH. now apply count_token_keeps_keys.
Qed.

Lemma count_tokens_add_keys (l : list string) (o : JsObject) (t : string) :
  In t l -> t <> "__proto__" -> In t (map fst (fold_left count_token l o)).
Proof.
  revert o; induction l as [|a l IH]; intros o Hin Hne; simpl; [contradiction|].
  destruct (string_dec a t) as [->|Hat].
  - apply count_tokens_keep_keys. now apply count_token_adds_key.
  - apply IH; [|assumption]. destruct Hin; [contradiction | assumption].
Qed.

(** [getFavoriteGenre] returns on an empty books list, and as soon as the
    books yield a token that the table can hold. *)
Lemma getFavoriteGenre_returns (this : UserState) :
  allBooks this = [] \/
  (exists t, In t (all_tokens (allBooks this)) /\ t <> "__proto__") ->
  exists g, getFavoriteGenre this = Normal g.
Proof.
  intros H. unfold getFavoriteGenre.
  destruct (allBooks this) as [|b0 books] eqn:Eb; [now exists ""|].
  destruct H as [H|(t & Hin & Hne)]; [discriminate|].
  rewrite genreCounts_of_tokens.
  set (o := fold_left count_token (all_tokens (b0 :: books)) []).
  assert (Hk : In t (Object_keys o)).
  { unfold Object_keys. apply own_property_order_In.
    now apply count_tokens_add_keys. }
  destruct (Object_keys o) as [|k0 ks]; [contradiction|].
  cbn [reduce]. eexists. reflexivity.
Qed.

(** C7. Whenever [getBooksFromFavoriteGenre] returns, for the favorite genre
    [getFavoriteGenre] returns, every returned book is one of the list's
    books whose genre string contains that genre as a substring, and the
    returned books are in descending order of rating, a missing rating
    counting as 0.  It returns whenever [getFavoriteGenre] does, and throws
    what [getFavoriteGenre] throws. *)
Theorem getBooksFromFavoriteGenre_spec (this : UserState) :
  (forall books,
      getBooksFromFavoriteGenre this = Normal books ->
      exists g,
        getFavoriteGenre this = Normal g /\
        Forall (fun book =>
                  In book (allBooks this) /\
                  exists bg, Book.genre book = Some bg /\ substring_of g bg)
               books /\
        StronglySorted (fun a z => rating_or_0 z <= rating_or_0 a) books) /\
  (allBooks this = [] \/
   (exists t, In t (all_tokens (allBooks this)) /\ t <> "__proto__") ->
   exists books, getBooksFromFavoriteGenre this = Normal books) /\
  (forall e, getFavoriteGenre this = Throw e ->
             getBooksFromFavoriteGenre this = Throw e).
Proof.
  split; [|split].
  - intros books E. unfold getBooksFromFavoriteGenre in E.
    destruct (getFavoriteGenre this) as [g|e]; [|discriminate].
    inversion E as [E']. clear E E'. exists g. split; [reflexivity|]. split.
    + apply toSorted_Forall. rewrite Forall_forall. intros b Hb.
      apply filter_In in Hb. destruct Hb as [Hin Hb]. split; [assumption|].
      destruct (Book.genre b) as [bg|]; [|discriminate].
      exists bg. split; [reflexivity|]. now apply includes_spec.
    + apply toSorted_sorted. intros a z _ _. unfold rating_or_0.
      destruct (Book.rating a) as [ra|], (Book.rating z) as [rz|]; simpl;
        try destruct (Z.eqb_spec ra 0); try destruct (Z.eqb_spec rz 0);
        simpl; subst; reflexivity.
  - intros H. destruct (getFavoriteGenre_returns this H) as [g Eg].
    unfold getBooksFromFavoriteGenre. rewrite Eg. eexists. reflexivity.
  - intros e E. unfold getBooksFromFavoriteGenre. now rewrite E.
Qed.


(* ================================================================= *)
(** ** The properties at sample inputs *)

Example getHighestRatedBooks_sample :
  map Book.id
      (getHighestRatedBooks
         (state_of_books [ sample_book 1 "alice" None (Some 3);
                           sample_book 2 "alice" None None;
                           sample_book 3 "alice" None (Some 5);
                           sample_book 4 "alice" None (Some 0);
                           sample_book 5 "alice" None (Some 3) ]))
  = [3; 1; 5].
Proof. reflexivity. Qed.

Example getUnreadBooks_sample :
  map Book.id (getUnreadBooks sample_getTime (state_of_books sample_shelf)) = [3; 1; 4].
Proof. reflexivity. Qed.

Example split_trim_sample :
  map trim (split "Sci-Fi, Drama ,,Non fiction" ",")
  = ["Sci-Fi"; "Drama"; ""; "Non fiction"].
Proof. reflexivity. Qed.

Example getFavoriteGenre_inherited_name :
  genreCounts_of [ sample_book 1 "alice" (Some "constructor, constructor") None;
                   sample_book 2 "alice" (Some "Drama, __proto__") None ]
  = [("constructor", Num 1); ("Drama", Num 1)].
Proof. reflexivity. Qed.

Example getFavoriteGenre_array_index_first :
  getFavoriteGenre (state_of_books [sample_book 1 "alice" (Some "Drama, 1984") None])
  = Normal "Drama".
Proof. reflexivity. Qed.

Lemma updateState_failure_witness :
  fetch_fails backend_down (User.id bob) /\
  allBooks (updateState sample_url backend_down (props_of bob)
                        (state_of_books tied_genres)) = tied_genres /\
  userName (updateState sample_url backend_down (props_of bob)
                        (state_of_books tied_genres)) = Some "alice".
Proof.
  assert (Hf : fetch_fails backend_down (User.id bob)) by (left; discriminate).
  split; [exact Hf|].
  destruct (updateState_failure_keeps_books_and_name
              sample_url backend_down (props_of bob) (state_of_books tied_genres))
    as (Hb & Hn & _).
  - intros u Hu. inversion Hu. exact Hf.
  - split; [exact Hb | exact Hn].
Defined.

Lemma updateBook_rating_success_witness :
  exists this',
    updateBook backend_up 1 (rating_update 5) (state_of_books tied_genres)
    = Normal this' /\
    getBookById 1 this' = Some (sample_book 1 "alice" (Some "Drama, Comedy") (Some 5)) /\
    nth_error (allBooks this') 1 = Some (sample_book 2 "alice" (Some "Poetry") None).
Proof.
  destruct (updateBook_rating_success
              backend_up 1 (state_of_books tied_genres) sample_client
              (sample_book 1 "alice" (Some "Drama, Comedy") (Some 3))
              eq_refl eq_refl eq_refl eq_refl)
    as (this' & E & Hget & _ & Hother & _).
  exists this'. split; [exact E|]. split; [exact Hget|].
  apply Hother; [reflexivity | discriminate].
Defined.

Lemma updateBook_failure_witness :
  ~ (status (books_update backend_down (rating_update 5) 1) = 204 /\
     error (books_update backend_down (rating_update 5) 1) = None) /\
  updateBook backend_down 1 (rating_update 5) (state_of_books tied_genres)
  = Normal (state_of_books tied_genres).
Proof.
  assert (Hrej : ~ (status (books_update backend_down (rating_update 5) 1) = 204 /\
                    error (books_update backend_down (rating_update 5) 1) = None))
    by (intros [H _]; discriminate H).
  split; [exact Hrej|].
  exact (proj1 (updateBook_failure_noop backend_down 1 (rating_update 5)
                                        (state_of_books tied_genres) Hrej)).
Defined.

Lemma getUnreadBooks_witness :
  StronglySorted (created_ge sample_getTime)
                 (getUnreadBooks sample_getTime (state_of_books sample_shelf)).
Proof.
  apply (proj2 (proj2 (getUnreadBooks_spec sample_getTime (state_of_books sample_shelf)))).
  intros book Hin. simpl in Hin.
  destruct Hin as [<-|[<-|[<-|[<-|[]]]]]; eexists; vm_compute; reflexivity.
Defined.

Lemma getFavoriteGenre_witness :
  exists g,
    getFavoriteGenre (state_of_books tied_genres) = Normal g /\
    In g (all_tokens tied_genres).
Proof.
  destruct (proj1 (proj2 (proj2 getFavoriteGenre_spec)) (state_of_books tied_genres))
    as (g & before & after & E & Hin & _).
  - discriminate.
  - vm_compute. repeat constructor; intros H; decompose [or] H; discriminate || assumption.
  - exists g. split; [exact E | exact Hin].
Defined.

Lemma getBooksFromFavoriteGenre_witness :
  exists books g,
    getBooksFromFavoriteGenre (state_of_books tied_genres) = Normal books /\
    getFavoriteGenre (state_of_books tied_genres) = Normal g /\
    Forall (fun book => exists bg, Book.genre book = Some bg /\ substring_of g bg) books.
Proof.
  destruct (getBooksFromFavoriteGenre_spec (state_of_books tied_genres))
    as (Hspec & Hret & _).
  destruct Hret as [books E].
  - right. exists "Drama". split; [vm_compute; tauto | discriminate].
  - destruct (Hspec books E) as (g & Eg & Hall & _).
    exists books, g. split; [exact E|]. split; [exact Eg|].
    eapply Forall_impl; [|exact Hall]. intros b H. exact (proj2 H).
Defined.

Lemma backend_up_honours_filter : honours_filter backend_up.
Proof. intros userId books H. inversion H. repeat constructor. Qed.



Lemma getFavoriteGenre_throws_witness :
  getFavoriteGenre (state_of_books no_genres)
  = Throw (TypeError "Reduce of empty array with no initial value").
Proof.
  apply (proj1 getFavoriteGenre_throws_without_tokens).
  - discriminate.
  - reflexivity.
Defined.

(* ================================================================= *)
(** ** Where the code departs from the specification *)

(** C6. "Drama" and "Comedy" and "Poetry" each occur once; the specification
    names the first seen, "Drama", the favorite, and [getFavoriteGenre]
    returns the last seen, "Poetry". *)
Lemma getFavoriteGenre_tie_goes_to_last_seen :
  occurrences "Drama" (all_tokens tied_genres)
  = occurrences "Poetry" (all_tokens tied_genres) /\
  spec_favoriteGenre tied_genres = "Drama" /\
  getFavoriteGenre (state_of_books tied_genres) = Normal "Poetry" /\
  getFavoriteGenre (state_of_books tied_genres)
  <> Normal (spec_favoriteGenre tied_genres).
Proof.
  split; [reflexivity|]. split; [reflexivity|]. split; [reflexivity|].
  vm_compute. discriminate.
Qed.


(** Two refreshes that overlap: the session changes from Alice to Bob while
    Alice's fetch is on its way, Bob's fetch is answered and installed
    first, and Alice's after it.  Every fetch succeeds, and the
    configuration has Bob as its user and Alice's book and name. *)
Example overlapping_refreshes_install_stale_rows :
  exists c,
    reachable sample_url c /\
    pending c = [] /\
    user (current c) = Some bob /\
    allBooks (current c) = [sample_book 1 "alice" (Some "Sci-Fi") (Some 4)] /\
    userName (current c) = Some "alice".
Proof.
  pose proof (reach_new sample_url (props_of alice)) as R.
  updateState_from R (props_of bob) R1.
  resume_from R1 backend_up (AwaitFetch "bob") [AwaitFetch "alice"] (@nil task)
              backend_up_honours_filter R2.
  resume_from R2 backend_up
              (AwaitSignedCovers "bob"
                 [sample_book 1 "bob" (Some "Sci-Fi") (Some 4)] "bob")
              [AwaitFetch "alice"] (@nil task) backend_up_honours_filter R3.
  resume_from R3 backend_up (AwaitFetch "alice") (@nil task) (@nil task)
              backend_up_honours_filter R4.
  resume_from R4 backend_up
              (AwaitSignedCovers "alice"
                 [sample_book 1 "alice" (Some "Sci-Fi") (Some 4)] "alice")
              (@nil task) (@nil task) backend_up_honours_filter R5.
  eexists. split; [exact R5|]. repeat split; reflexivity.
Qed.

(* ================================================================= *)
(** ** Further properties of the class *)

(* --------------------------------------------------------------- *)
(** *** Refreshing *)

Lemma with_cover_image_same (book : Book.t) :
  Book.with_cover_image book (Book.cover_image book) = book.
Proof. now destruct book. Qed.

Lemma sign_cover_image_fields (url : string) be this book :
  sign_cover_image url be this book =
  Book.with_cover_image book
    (Book.cover_image (sign_cover_image url be this book)).
Proof.
  unfold sign_cover_image.
  destruct (Book.cover_image book) as [cover|] eqn:Ec.
  - destruct (_ && _).
    + destruct (data _); [reflexivity|].
      rewrite Ec, <- Ec. symmetry. apply with_cover_image_same.
    + rewrite Ec, <- Ec. symmetry. apply with_cover_image_same.
  - rewrite Ec, <- Ec. symmetry. apply with_cover_image_same.
Qed.

(** X1. When the user and the client are present and both fetches succeed,
    the refresh installs the fetched name and the fetched rows, in the order
    of the reply: the book at each position is the row at that position, its
    cover image apart. *)
Theorem updateState_success
        (url : string) (be : Backend) (props : UserStateProps.t) (this : UserState)
        (u : User.t) (client : SupabaseClient.t)
        (books : list Book.t) (row : UserNameRow.t) :
  UserStateProps.user props = Some u ->
  UserStateProps.supabase props = Some client ->
  error (books_select be (User.id u)) = None ->
  data (books_select be (User.id u)) = Some books ->
  error (user_names_select be (User.id u)) = None ->
  data (user_names_select be (User.id u)) = Some row ->
  userName (updateState url be props this) = Some (UserNameRow.name row) /\
  List.length (allBooks (updateState url be props this)) = List.length books /\
  map Book.id (allBooks (updateState url be props this)) = map Book.id books /\
  (forall i book,
      nth_error books i = Some book ->
      exists book',
        nth_error (allBooks (updateState url be props this)) i = Some book' /\
        book' = Book.with_cover_image book (Book.cover_image book')).
Proof.
  intros Hu Hc He1 Hd1 He2 Hd2.
  unfold updateState, fetchUserData. simpl. rewrite Hu, Hc, He1, Hd1, He2, Hd2.
  simpl. split; [reflexivity|]. split; [apply length_map|]. split.
  - rewrite map_map. apply map_ext. intros b.
    rewrite sign_cover_image_fields. reflexivity.
  - intros i book Hi. eexists. split.
    + rewrite nth_error_map, Hi. reflexivity.
    + apply sign_cover_image_fields.
Qed.

(** X2. A refresh whose fetches both succeed replaces the list and the name:
    the state it leaves does not depend on the books and the name it
    found. *)
Theorem updateState_success_replaces
        (url : string) (be : Backend) (props : UserStateProps.t)
        (this this' : UserState) (u : User.t) (client : SupabaseClient.t) :
  UserStateProps.user props = Some u ->
  UserStateProps.supabase props = Some client ->
  fetch_succeeds be (User.id u) ->
  updateState url be props this = updateState url be props this'.
Proof.
  intros Hu Hc (He1 & Hd1 & He2 & Hd2).
  unfold updateState, fetchUserData. simpl. rewrite Hu, Hc, He1, He2.
  destruct (data (books_select be (User.id u))) as [books|]; [|congruence].
  destruct (data (user_names_select be (User.id u))) as [row|]; [|congruence].
  unfold set_userName, set_allBooks. simpl. f_equal.
Qed.


(* --------------------------------------------------------------- *)
(** *** Signing the covers *)

Lemma string_app_assoc (u v w : string) : (u ++ v) ++ w = u ++ v ++ w.
Proof. induction u as [|c u IH]; simpl; [reflexivity | now rewrite IH]. Qed.

Lemma split_scan_no_occurrence (sep s : string) :
  includes s sep = false -> split_scan sep 0 s = (s, []).
Proof.
  induction s as [|c r IH]; cbn [includes split_scan]; [reflexivity|].
  intros H. apply orb_false_iff in H. destruct H as [Hp Hr].
  rewrite Hp, (IH Hr). reflexivity.
Qed.

Lemma split_no_occurrence (s sep : string) :
  includes s sep = false -> split s sep = [s].
Proof.
  intros H. unfold split. destruct sep as [|d sep'].
  - destruct s; discriminate H.
  - now rewrite split_scan_no_occurrence.
Qed.

Lemma split_after_separator (sep rest : string) :
  sep <> "" -> includes rest sep = false ->
  split (sep ++ rest) sep = [""; rest].
Proof.
  intros Hsep Hrest. unfold split. destruct sep as [|d sep']; [congruence|].
  change (String d sep' ++ rest) with (String d (sep' ++ rest)).
  cbn [split_scan].
  assert (Hp : String.prefix (String d sep') (String d (sep' ++ rest)) = true)
    by (apply prefix_spec; now exists rest).
  rewrite Hp. cbn [String.length Nat.pred].
  rewrite split_scan_skip, split_scan_no_occurrence by assumption.
  reflexivity.
Qed.

Lemma bucket_path_not_empty (url : string) : bucket_path url <> "".
Proof. unfold bucket_path. destruct url; discriminate. Qed.

(** X4. A cover stored as the bucket's public prefix followed by a file path
    is signed for exactly that file path, for one hour, and the book shows
    the signed URL when the service grants one and keeps its cover when it
    does not. *)
Theorem sign_cover_image_file_path
        (url : string) (be : Backend) (this : UserState)
        (client : SupabaseClient.t) (book : Book.t) (filePath : string) :
  supabase this = Some client ->
  Book.cover_image book = Some (bucket_path url ++ filePath) ->
  includes filePath (bucket_path url) = false ->
  sign_cover_image url be this book =
    match data (covers_createSignedUrl be (Some filePath) 3600) with
    | Some d => Book.with_cover_image book (Some (SignedUrl.signedUrl d))
    | None => book
    end.
Proof.
  intros Hc Hcover Hfile. unfold sign_cover_image. rewrite Hcover, Hc.
  assert (Hne : nullable_string_truthy (Some (bucket_path url ++ filePath)) = true).
  { pose proof (bucket_path_not_empty url) as H.
    destruct (bucket_path url); [congruence | reflexivity]. }
  assert (Hstart : startsWith (bucket_path url ++ filePath) url = true).
  { unfold startsWith. apply prefix_spec. unfold bucket_path.
    eexists. apply string_app_assoc. }
  rewrite Hne, Hstart. cbn [andb not_null].
  fold (bucket_path url).
  rewrite split_after_separator by (auto using bucket_path_not_empty).
  reflexivity.
Qed.

(** X5. A book with no cover, with an empty one, or with a cover that does
    not start with the project URL comes out of the refresh as it was
    fetched. *)
Theorem sign_cover_image_foreign
        (url : string) (be : Backend) (this : UserState) (book : Book.t) :
  (forall cover, Book.cover_image book = Some cover ->
                 cover = "" \/ startsWith cover url = false) ->
  sign_cover_image url be this book = book.
Proof.
  intros H. unfold sign_cover_image.
  destruct (Book.cover_image book) as [cover|]; [|reflexivity].
  destruct (H cover eq_refl) as [->|Hs]; [reflexivity|].
  rewrite Hs, andb_false_r. reflexivity.
Qed.

(** X6. A cover that starts with the project URL but does not contain the
    bucket's public prefix is signed with no path at all ([undefined]). *)
Theorem sign_cover_image_undefined_path
        (url : string) (be : Backend) (this : UserState)
        (client : SupabaseClient.t) (book : Book.t) (cover : string) :
  supabase this = Some client ->
  Book.cover_image book = Some cover ->
  cover <> "" ->
  startsWith cover url = true ->
  includes cover (bucket_path url) = false ->
  sign_cover_image url be this book =
    match data (covers_createSignedUrl be None 3600) with
    | Some d => Book.with_cover_image book (Some (SignedUrl.signedUrl d))
    | None => book
    end.
Proof.
  intros Hc Hcover Hne Hstart Hout. unfold sign_cover_image.
  rewrite Hcover, Hc, Hstart.
  assert (Ht : nullable_string_truthy (Some cover) = true)
    by (destruct cover; [congruence | reflexivity]).
  rewrite Ht. cbn [andb not_null]. fold (bucket_path url).
  rewrite split_no_occurrence by assumption. reflexivity.
Qed.

(* --------------------------------------------------------------- *)
(** *** Updating books *)

Lemma spread_identity (book : Book.t) (updateObject : UpdatableBookFields.partial) :
  book_identity (spread book updateObject) = book_identity book.
Proof. reflexivity. Qed.

Lemma patch_book_id (bookId : Z) updateObject (book : Book.t) :
  Book.id (patch_book bookId updateObject book) = Book.id book.
Proof. unfold patch_book. destruct (Book.id book =? bookId); reflexivity. Qed.

Lemma patch_book_identity (bookId : Z) updateObject (book : Book.t) :
  book_identity (patch_book bookId updateObject book) = book_identity book.
Proof. unfold patch_book. destruct (Book.id book =? bookId); reflexivity. Qed.

Lemma updateBook_cases be bookId updateObject this :
  updateBook be bookId updateObject this = Normal this \/
  updateBook be bookId updateObject this =
    Normal (set_allBooks this (map (patch_book bookId updateObject) (allBooks this))).
Proof.
  unfold updateBook. destruct (supabase this); [|now left].
  destruct (_ && _); [now right | now left].
Qed.

Lemma updateBook_applied be bookId updateObject this client :
  supabase this = Some client ->
  status (books_update be updateObject bookId) = 204 ->
  error (books_update be updateObject bookId) = None ->
  updateBook be bookId updateObject this =
    Normal (set_allBooks this (map (patch_book bookId updateObject) (allBooks this))).
Proof.
  intros Hc Hs He. unfold updateBook. rewrite Hc, Hs, He. reflexivity.
Qed.

Lemma find_by_id_map (bookId : Z) (f : Book.t -> Book.t) (l : list Book.t) :
  (forall book, Book.id (f book) = Book.id book) ->
  find (fun book => Book.id book =? bookId) (map f l) =
  option_map f (find (fun book => Book.id book =? bookId) l).
Proof.
  intros Hid. induction l as [|b l IH]; simpl; [reflexivity|].
  rewrite Hid. destruct (Book.id b =? bookId); [reflexivity | exact IH].
Qed.

(** X7. After an update that the service accepts (status 204, no error), the
    book at each position is the book that was there, with the update
    object spread over it when its id is [bookId]; looking a book up by
    [bookId] finds the updated version of the book found before, and
    looking up any other id finds what it found before. *)
Theorem updateBook_success
        (be : Backend) (bookId : Z) (updateObject : UpdatableBookFields.partial)
        (this : UserState) (client : SupabaseClient.t) :
  supabase this = Some client ->
  status (books_update be updateObject bookId) = 204 ->
  error (books_update be updateObject bookId) = None ->
  exists this',
    updateBook be bookId updateObject this = Normal this' /\
    (forall i book,
        nth_error (allBooks this) i = Some book ->
        nth_error (allBooks this') i =
          Some (if Book.id book =? bookId then spread book updateObject else book)) /\
    getBookById bookId this' =
      option_map (fun book => spread book updateObject) (getBookById bookId this) /\
    (forall otherId, otherId <> bookId ->
                     getBookById otherId this' = getBookById otherId this).
Proof.
  intros Hc Hs He. eexists. split; [now apply (updateBook_applied be _ _ _ client)|].
  simpl. split; [|split].
  - intros i book Hi. rewrite nth_error_map, Hi. reflexivity.
  - unfold getBookById, array_find. simpl.
    rewrite find_by_id_map by apply patch_book_id.
    destruct (find _ (allBooks this)) as [b|] eqn:Ef; [|reflexivity].
    apply find_some in Ef. destruct Ef as [_ Hid]. simpl.
    unfold patch_book. now rewrite Hid.
  - intros otherId Hne. unfold getBookById, array_find. simpl.
    rewrite find_by_id_map by apply patch_book_id.
    destruct (find _ (allBooks this)) as [b|] eqn:Ef; [|reflexivity].
    apply find_some in Ef. destruct Ef as [_ Hid]. simpl.
    apply Z.eqb_eq in Hid. unfold patch_book.
    destruct (Book.id b =? bookId) eqn:E; [|reflexivity].
    apply Z.eqb_eq in E. congruence.
Qed.

(** X8. Sending the same update twice changes nothing more than sending it
    once. *)
Theorem updateBook_idempotent
        (be : Backend) (bookId : Z) (updateObject : UpdatableBookFields.partial)
        (this this1 this2 : UserState) :
  updateBook be bookId updateObject this = Normal this1 ->
  updateBook be bookId updateObject this1 = Normal this2 ->
  this2 = this1.
Proof.
  intros E1 E2. unfold updateBook in *.
  destruct (supabase this) as [c|] eqn:Ec.
  - destruct (_ && _) eqn:Er in E1.
    + inversion E1; subst this1; clear E1. simpl in E2. rewrite Ec, Er in E2.
      inversion E2; subst this2; clear E2.
      unfold set_allBooks. simpl. f_equal. rewrite map_map. apply map_ext.
      intros b. destruct (Book.id b =? bookId) eqn:Eb; simpl; [|now rewrite Eb].
      rewrite Eb. unfold spread, override. simpl.
      destruct updateObject as [a c' d f g r s t]; simpl.
      destruct a, c', d, f, g, r, s, t; reflexivity.
    + inversion E1; subst this1; clear E1. rewrite Ec, Er in E2. now inversion E2.
  - inversion E1; subst this1; clear E1. rewrite Ec in E2. now inversion E2.
Qed.

(** X9. Updates of two different ids can be sent in either order: the
    resulting state is the same. *)
Theorem updateBook_commutes
        (be : Backend) (id1 id2 : Z) (u1 u2 : UpdatableBookFields.partial)
        (this this1 this2 this12 this21 : UserState) :
  id1 <> id2 ->
  updateBook be id1 u1 this = Normal this1 ->
  updateBook be id2 u2 this1 = Normal this12 ->
  updateBook be id2 u2 this = Normal this2 ->
  updateBook be id1 u1 this2 = Normal this21 ->
  this12 = this21.
Proof.
  intros Hne E1 E12 E2 E21. unfold updateBook in *.
  destruct (supabase this) as [c|] eqn:Ec.
  - destruct ((status (books_update be u1 id1) =? 204) && _) eqn:R1;
      destruct ((status (books_update be u2 id2) =? 204) && _) eqn:R2;
      inversion E1; subst this1; clear E1; inversion E2; subst this2; clear E2;
      simpl in E12, E21; rewrite Ec in E12, E21;
      inversion E12; subst this12; clear E12;
      inversion E21; subst this21; clear E21;
      try reflexivity.
    unfold set_allBooks. simpl. f_equal. rewrite !map_map. apply map_ext.
    intros b. destruct (Book.id b =? id1) eqn:B1, (Book.id b =? id2) eqn:B2;
      simpl; rewrite ?B1, ?B2; try reflexivity.
    apply Z.eqb_eq in B1, B2. congruence.
  - inversion E1; subst this1; clear E1. inversion E2; subst this2; clear E2.
    rewrite Ec in E12, E21. inversion E12. inversion E21. congruence.
Qed.

(* --------------------------------------------------------------- *)
(** *** Uploading covers *)

Lemma uploadBookCover_cases be file bookId this :
  uploadBookCover be file bookId this = Normal this \/
  exists signed,
    signed <> "" /\
    uploadBookCover be file bookId this =
      Normal (set_allBooks this
                (map (fun book => if Book.id book =? bookId
                                  then Book.with_cover_image book (Some signed)
                                  else book)
                     (allBooks this))).
Proof.
  unfold uploadBookCover.
  destruct (user this); [|now left].
  destruct (supabase this); [|now left].
  destruct (error (covers_upload _ _ _)); [now left|].
  destruct (_ || _); [now left|].
  destruct (data _) as [d|]; [|now left].
  destruct (SignedUrl.signedUrl d) as [|c s] eqn:Es; [now left|].
  right. exists (String c s). split; [discriminate | reflexivity].
Qed.

(** X10. Whatever the service answers, [updateBook] and [uploadBookCover]
    neither add, remove nor reorder books, never touch a book's id, owner or
    creation date, and leave the session, the client, the user and the name
    alone. *)
Theorem updates_keep_the_shelf :
  (forall be bookId updateObject this this',
      updateBook be bookId updateObject this = Normal this' ->
      map book_identity (allBooks this') = map book_identity (allBooks this) /\
      session this' = session this /\ supabase this' = supabase this /\
      user this' = user this /\ userName this' = userName this) /\
  (forall be file bookId this this',
      uploadBookCover be file bookId this = Normal this' ->
      map book_identity (allBooks this') = map book_identity (allBooks this) /\
      session this' = session this /\ supabase this' = supabase this /\
      user this' = user this /\ userName this' = userName this).
Proof.
  split.
  - intros be bookId updateObject this this' E.
    destruct (updateBook_cases be bookId updateObject this) as [E'|E'];
      rewrite E' in E; inversion E; subst this'; [auto 6|].
    simpl. split; [|auto]. rewrite map_map. apply map_ext.
    intros b. apply patch_book_identity.
  - intros be file bookId this this' E.
    destruct (uploadBookCover_cases be file bookId this) as [E'|(signed & _ & E')];
      rewrite E' in E; inversion E; subst this'; [auto 6|].
    simpl. split; [|auto]. rewrite map_map. apply map_ext.
    intros b. destruct (Book.id b =? bookId); reflexivity.
Qed.


(** X12. When one of the three steps fails (the upload answers with an
    error, the update of the stored cover is not answered with status 204
    and no error, or the signing grants no URL or an empty one), the state
    is left as it was. *)
Theorem uploadBookCover_aborts
        (be : Backend) (file : File.t) (bookId : Z) (this : UserState)
        (u : User.t) (filePath : string) :
  user this = Some u ->
  filePath = User.id u ++ "/" ++ File.name file ->
  error (covers_upload be filePath file) <> None \/
  status (books_update be (cover_image_update (covers_getPublicUrl be filePath)) bookId)
  <> 204 \/
  error (books_update be (cover_image_update (covers_getPublicUrl be filePath)) bookId)
  <> None \/
  data (covers_createSignedUrl be (Some filePath) 3600) = None \/
  (exists d, data (covers_createSignedUrl be (Some filePath) 3600) = Some d /\
             SignedUrl.signedUrl d = "") ->
  uploadBookCover be file bookId this = Normal this.
Proof.
  intros Hu -> H. unfold cover_image_update in *. unfold uploadBookCover. rewrite Hu.
  destruct (supabase this); [|reflexivity].
  destruct (error (covers_upload _ _ _)) eqn:Eup; [reflexivity|].
  destruct (status _ =? 204) eqn:Es; [|reflexivity].
  destruct (error (books_update _ _ _)) eqn:Ee; [reflexivity|].
  cbn [negb orb not_null].
  apply Z.eqb_eq in Es.
  destruct H as [H|[H|[H|[H|(d & Hd & Hempty)]]]]; try congruence.
  - now rewrite H.
  - rewrite Hd, Hempty. reflexivity.
Qed.

(** X13. Without a client no method changes the state, and without a user
    neither the refresh nor the upload does, whatever the service would
    answer. *)
Theorem no_client_no_change
        (url : string) (be : Backend) (this : UserState) :
  (supabase this = None ->
   fetchUserData url be this = Normal this /\
   (forall bookId updateObject, updateBook be bookId updateObject this = Normal this) /\
   (forall file bookId, uploadBookCover be file bookId this = Normal this)) /\
  (user this = None ->
   fetchUserData url be this = Normal this /\
   (forall file bookId, uploadBookCover be file bookId this = Normal this)).
Proof.
  split; intros H.
  - unfold fetchUserData, updateBook, uploadBookCover. rewrite H.
    destruct (user this); auto.
  - unfold fetchUserData, uploadBookCover. rewrite H. auto.
Qed.

(* --------------------------------------------------------------- *)
(** *** The views, in full *)

Lemma StronglySorted_app_inv {A} (R : A -> A -> Prop) (l1 l2 : list A) :
  StronglySorted R (l1 ++ l2)%list ->
  Forall (fun z => Forall (fun a => R a z) l1) l2.
Proof.
  induction l1 as [|x l1 IH]; simpl; intros H.
  - rewrite Forall_forall. intros z _. constructor.
  - inversion H as [|? ? Hs Hall]; subst. specialize (IH Hs).
    rewrite Forall_forall in *. intros z Hz. constructor.
    + apply Hall. apply in_or_app. now right.
    + now apply IH.
Qed.

Lemma filter_firstn_skipn {A} (p : A -> bool) (n : nat) (l : list A) :
  filter p l = (filter p (firstn n l) ++ filter p (skipn n l))%list.
Proof. rewrite <- filter_app, firstn_skipn. reflexivity. Qed.

Lemma rating_comparator (a z : Book.t) :
  compare_result
    (number_sub (nullable_to_number (Book.rating z))
                (nullable_to_number (Book.rating a)))
  = rating_or_0 z - rating_or_0 a.
Proof.
  unfold rating_or_0. destruct (Book.rating a), (Book.rating z); reflexivity.
Qed.

(** X14. [getHighestRatedBooks] returns the best of the rated books: together
    with the books it leaves out, its result is a rearrangement of the books
    of truthy rating; no book left out is rated higher than a returned one;
    and nothing is left out when there are at most 9 rated books. *)
Theorem getHighestRatedBooks_top (this : UserState) :
  exists omitted,
    Permutation (getHighestRatedBooks this ++ omitted)%list
                (filter (fun book => nullable_number_truthy (Book.rating book))
                        (allBooks this)) /\
    Forall (fun o => Forall (fun r => rating_or_0 o <= rating_or_0 r)
                            (getHighestRatedBooks this))
           omitted /\
    ((List.length (filter (fun book => nullable_number_truthy (Book.rating book))
                          (allBooks this)) <= 9)%nat ->
     omitted = []).
Proof.
  unfold getHighestRatedBooks, slice0.
  set (rated := filter _ (allBooks this)).
  set (sorted := toSorted _ rated).
  exists (skipn 9 sorted). split; [|split].
  - rewrite firstn_skipn. apply toSorted_Permutation.
  - apply StronglySorted_app_inv with (R := fun a z => rating_or_0 z <= rating_or_0 a).
    rewrite firstn_skipn. apply toSorted_sorted.
    intros a z _ _. apply rating_comparator.
  - intros Hlen. apply skipn_all2.
    unfold sorted. rewrite (Permutation_length (toSorted_Permutation _ rated)).
    exact Hlen.
Qed.

(** X15. Books of equal rating are returned in the order of the list: for
    each rating, the returned books of that rating are the first of the
    list's books of that rating, in list order. *)
Theorem getHighestRatedBooks_ties_in_list_order (this : UserState) (r : Z) :
  exists omitted,
    filter (fun book => rating_or_0 book =? r)
           (filter (fun book => nullable_number_truthy (Book.rating book))
                   (allBooks this))
    = (filter (fun book => rating_or_0 book =? r) (getHighestRatedBooks this)
       ++ omitted)%list.
Proof.
  unfold getHighestRatedBooks, slice0.
  set (rated := filter _ (allBooks this)).
  exists (filter (fun book => rating_or_0 book =? r)
                 (skipn 9 (toSorted
                             (fun a z => number_sub (nullable_to_number (Book.rating z))
                                                    (nullable_to_number (Book.rating a)))
                             rated))).
  rewrite <- filter_firstn_skipn.
  symmetry. apply toSorted_stable with (key := rating_or_0).
  intros a z _ _. apply rating_comparator.
Qed.

(** X16. When every [created_at] of the list denotes a date,
    [getUnreadBooks] returns the most recent of the unread books: with the
    books it leaves out it is a rearrangement of the books of falsy
    [started_reading_on], no book left out is more recent than a returned
    one, nothing is left out when there are at most 9 unread books, and
    books created at the same time are returned in list order. *)
Theorem getUnreadBooks_top (Date_getTime : string -> number) (this : UserState) :
  (forall book, In book (allBooks this) ->
                exists t, Date_getTime (Book.created_at book) = Num t) ->
  exists omitted,
    Permutation (getUnreadBooks Date_getTime this ++ omitted)%list
                (filter (fun book =>
                           negb (nullable_string_truthy (Book.started_reading_on book)))
                        (allBooks this)) /\
    Forall (fun o => Forall (fun r => created_ge Date_getTime r o)
                            (getUnreadBooks Date_getTime this))
           omitted /\
    ((List.length (filter (fun book =>
                             negb (nullable_string_truthy
                                     (Book.started_reading_on book)))
                          (allBooks this)) <= 9)%nat ->
     omitted = []) /\
    (forall t,
        exists later,
          filter (fun book => compare_result (Date_getTime (Book.created_at book)) =? t)
                 (filter (fun book =>
                            negb (nullable_string_truthy (Book.started_reading_on book)))
                         (allBooks this))
          = (filter (fun book =>
                       compare_result (Date_getTime (Book.created_at book)) =? t)
                    (getUnreadBooks Date_getTime this)
             ++ later)%list).
Proof.
  intros Hdates. unfold getUnreadBooks, slice0.
  set (unread := filter _ (allBooks this)).
  set (cmp := fun a z => number_sub (Date_getTime (Book.created_at z))
                                    (Date_getTime (Book.created_at a))).
  set (key := fun book => compare_result (Date_getTime (Book.created_at book))).
  assert (Hcmp : forall a z, In a unread -> In z unread ->
                             compare_result (cmp a z) = key z - key a).
  { intros a z Ha Hz. apply filter_In in Ha, Hz. unfold cmp, key.
    destruct (Hdates a (proj1 Ha)) as [ta ->], (Hdates z (proj1 Hz)) as [tz ->].
    reflexivity. }
  assert (Hin : forall b, In b (toSorted cmp unread) -> In b (allBooks this)).
  { intros b Hb. apply toSorted_In in Hb. apply filter_In in Hb. tauto. }
  exists (skipn 9 (toSorted cmp unread)). split; [|split; [|split]].
  - rewrite firstn_skipn. apply toSorted_Permutation.
  - assert (Hs : Forall (fun o => Forall (fun r => key o <= key r)
                                         (firstn 9 (toSorted cmp unread)))
                        (skipn 9 (toSorted cmp unread))).
    { apply StronglySorted_app_inv with (R := fun a z => key z <= key a).
      rewrite firstn_skipn. now apply toSorted_sorted. }
    rewrite Forall_forall in *. intros o Ho. specialize (Hs o Ho).
    rewrite Forall_forall in *. intros r Hr. specialize (Hs r Hr).
    assert (Ho' : In o (allBooks this))
      by (apply Hin; rewrite <- (firstn_skipn 9); apply in_or_app; now right).
    assert (Hr' : In r (allBooks this))
      by (apply Hin; rewrite <- (firstn_skipn 9); apply in_or_app; now left).
    destruct (Hdates o Ho') as [to Eo], (Hdates r Hr') as [tr Er].
    unfold key in Hs. rewrite Eo, Er in Hs. simpl in Hs.
    exists tr, to. auto.
  - intros Hlen. apply skipn_all2.
    rewrite (Permutation_length (toSorted_Permutation cmp unread)). exact Hlen.
  - intros t. exists (filter (fun book => key book =? t) (skipn 9 (toSorted cmp unread))).
    fold key. rewrite <- filter_firstn_skipn.
    symmetry. now apply toSorted_stable.
Qed.

Lemma favorite_comparator (a z : Book.t) :
  compare_result
    (number_sub
       (if nullable_number_truthy (Book.rating z)
        then nullable_to_number (Book.rating z) else Num 0)
       (if nullable_number_truthy (Book.rating a)
        then nullable_to_number (Book.rating a) else Num 0))
  = rating_or_0 z - rating_or_0 a.
Proof.
  unfold rating_or_0.
  destruct (Book.rating a) as [ra|], (Book.rating z) as [rz|]; simpl;
    try destruct (Z.eqb_spec ra 0); try destruct (Z.eqb_spec rz 0);
    simpl; subst; reflexivity.
Qed.

(** X17. [getBooksFromFavoriteGenre] leaves no match out: what it returns is
    a rearrangement of the list's books whose genre contains the favorite
    genre, and books of equal rating (a missing one counting as 0) come in
    list order. *)
Theorem getBooksFromFavoriteGenre_complete (this : UserState) (books : list Book.t) :
  getBooksFromFavoriteGenre this = Normal books ->
  exists g,
    getFavoriteGenre this = Normal g /\
    Permutation books
                (filter (fun book => match Book.genre book with
                                     | Some bg => includes bg g
                                     | None => false
                                     end)
                        (allBooks this)) /\
    (forall r,
        filter (fun book => rating_or_0 book =? r) books =
        filter (fun book => rating_or_0 book =? r)
               (filter (fun book => match Book.genre book with
                                    | Some bg => includes bg g
                                    | None => false
                                    end)
                       (allBooks this))).
Proof.
  intros E. unfold getBooksFromFavoriteGenre in E.
  destruct (getFavoriteGenre this) as [g|e]; [|discriminate].
  inversion E as [E']. clear E E'. exists g. split; [reflexivity|]. split.
  - apply toSorted_Permutation.
  - intros r. apply toSorted_stable with (key := rating_or_0).
    intros a z _ _. apply favorite_comparator.
Qed.

(* --------------------------------------------------------------- *)
(** *** Updates seen through the views *)

Lemma getHighestRatedBooks_In (this : UserState) (book : Book.t) :
  In book (getHighestRatedBooks this) ->
  In book (allBooks this) /\ nullable_number_truthy (Book.rating book) = true.
Proof.
  unfold getHighestRatedBooks, slice0. intros H.
  apply firstn_In, toSorted_In, filter_In in H. exact H.
Qed.

Lemma getUnreadBooks_In (Date_getTime : string -> number) (this : UserState)
      (book : Book.t) :
  In book (getUnreadBooks Date_getTime this) ->
  In book (allBooks this) /\
  nullable_string_truthy (Book.started_reading_on book) = false.
Proof.
  unfold getUnreadBooks, slice0. intros H.
  apply firstn_In, toSorted_In, filter_In in H. destruct H as [Hin Hb].
  apply negb_true_iff in Hb. now split.
Qed.

(** X18. Once the service has accepted an update that sets the rating of
    [bookId] to null or to 0, no book of that id is among the highest rated;
    once it has accepted one that sets a non-empty [started_reading_on], no
    book of that id is among the unread. *)
Theorem updateBook_removes_from_views
        (Date_getTime : string -> number) (be : Backend) (bookId : Z)
        (updateObject : UpdatableBookFields.partial)
        (this this' : UserState) (client : SupabaseClient.t) :
  supabase this = Some client ->
  status (books_update be updateObject bookId) = 204 ->
  error (books_update be updateObject bookId) = None ->
  updateBook be bookId updateObject this = Normal this' ->
  (UpdatableBookFields.rating updateObject = Some None \/
   UpdatableBookFields.rating updateObject = Some (Some 0) ->
   Forall (fun book => Book.id book <> bookId) (getHighestRatedBooks this')) /\
  (forall date,
      UpdatableBookFields.started_reading_on updateObject = Some (Some date) ->
      date <> "" ->
      Forall (fun book => Book.id book <> bookId)
             (getUnreadBooks Date_getTime this')).
Proof.
  intros Hc Hs He E.
  rewrite (updateBook_applied be _ _ _ client Hc Hs He) in E.
  inversion E; subst this'; clear E. split.
  - intros Hr. rewrite Forall_forall. intros b Hb Hid.
    apply getHighestRatedBooks_In in Hb. destruct Hb as [Hin Ht]. simpl in Hin.
    apply in_map_iff in Hin. destruct Hin as (b0 & <- & _).
    rewrite patch_book_id in Hid. unfold patch_book in Ht.
    apply Z.eqb_eq in Hid. rewrite Hid in Ht. simpl in Ht.
    destruct Hr as [Hr|Hr]; rewrite Hr in Ht; discriminate.
  - intros date Hd Hne. rewrite Forall_forall. intros b Hb Hid.
    apply getUnreadBooks_In in Hb. destruct Hb as [Hin Ht]. simpl in Hin.
    apply in_map_iff in Hin. destruct Hin as (b0 & <- & _).
    rewrite patch_book_id in Hid. unfold patch_book in Ht.
    apply Z.eqb_eq in Hid. rewrite Hid in Ht. simpl in Ht.
    rewrite Hd in Ht. destruct date; [congruence | discriminate].
Qed.

(** X19. Once the service has accepted an update that gives the book found
    under [bookId] a rating other than 0, that book, updated, is among the
    highest rated as soon as the list holds at most 9 rated books. *)
Theorem updateBook_adds_to_highest_rated
        (be : Backend) (bookId : Z) (updateObject : UpdatableBookFields.partial)
        (this this' : UserState) (client : SupabaseClient.t)
        (book : Book.t) (r : Z) :
  supabase this = Some client ->
  status (books_update be updateObject bookId) = 204 ->
  error (books_update be updateObject bookId) = None ->
  updateBook be bookId updateObject this = Normal this' ->
  getBookById bookId this = Some book ->
  UpdatableBookFields.rating updateObject = Some (Some r) -> r <> 0 ->
  (List.length (filter (fun b => nullable_number_truthy (Book.rating b))
                       (allBooks this')) <= 9)%nat ->
  In (spread book updateObject) (getHighestRatedBooks this').
Proof.
  intros Hc Hs He E Hfind Hr Hne Hlen.
  rewrite (updateBook_applied be _ _ _ client Hc Hs He) in E.
  inversion E; subst this'; clear E.
  unfold getHighestRatedBooks, slice0.
  rewrite firstn_all2
    by (rewrite (Permutation_length (toSorted_Permutation _ _)); exact Hlen).
  apply toSorted_In, filter_In.
  unfold getBookById, array_find in Hfind. apply find_some in Hfind.
  destruct Hfind as [Hin Hid]. split.
  - simpl. apply in_map_iff. exists book. split; [|assumption].
    unfold patch_book. now rewrite Hid.
  - simpl. rewrite Hr. simpl. apply negb_true_iff, Z.eqb_neq. exact Hne.
Qed.

Lemma all_tokens_of_genres (books books' : list Book.t) :
  map Book.genre books' = map Book.genre books ->
  all_tokens books' = all_tokens books.
Proof.
  revert books'; induction books as [|b books IH]; intros [|b' books'] H;
    try discriminate; [reflexivity|].
  simpl in H. inversion H as [[Hg Hrest]]. unfold all_tokens in *. simpl.
  rewrite (IH books' Hrest). unfold book_tokens. now rewrite Hg.
Qed.

Lemma getFavoriteGenre_of_genres (this this' : UserState) :
  map Book.genre (allBooks this') = map Book.genre (allBooks this) ->
  getFavoriteGenre this' = getFavoriteGenre this.
Proof.
  intros H. unfold getFavoriteGenre.
  rewrite !genreCounts_of_tokens, (all_tokens_of_genres _ _ H).
  destruct (allBooks this), (allBooks this'); try discriminate; reflexivity.
Qed.

(** X20. The favorite genre only depends on the genres: uploading a cover
    never changes it, and neither does an update that carries no genre. *)
Theorem getFavoriteGenre_unaffected :
  (forall be file bookId this this',
      uploadBookCover be file bookId this = Normal this' ->
      getFavoriteGenre this' = getFavoriteGenre this) /\
  (forall be bookId updateObject this this',
      UpdatableBookFields.genre updateObject = None ->
      updateBook be bookId updateObject this = Normal this' ->
      getFavoriteGenre this' = getFavoriteGenre this).
Proof.
  split.
  - intros be file bookId this this' E. apply getFavoriteGenre_of_genres.
    destruct (uploadBookCover_cases be file bookId this) as [E'|(signed & _ & E')];
      rewrite E' in E; inversion E; subst this'; [reflexivity|].
    simpl. rewrite map_map. apply map_ext.
    intros b. destruct (Book.id b =? bookId); reflexivity.
  - intros be bookId updateObject this this' Hg E. apply getFavoriteGenre_of_genres.
    destruct (updateBook_cases be bookId updateObject this) as [E'|E'];
      rewrite E' in E; inversion E; subst this'; [reflexivity|].
    simpl. rewrite map_map. apply map_ext.
    intros b. unfold patch_book. destruct (Book.id b =? bookId); [|reflexivity].
    simpl. now rewrite Hg.
Qed.

(* --------------------------------------------------------------- *)
(** *** The table of genre counts, in full *)

Lemma occurrences_nonneg (k : string) (l : list string) : 0 <= occurrences k l.
Proof. unfold occurrences. lia. Qed.

Lemma occurrences_zero (k : string) (l : list string) :
  occurrences k l = 0 <-> string_mem k l = false.
Proof.
  unfold occurrences. split.
  - intros H. destruct (string_mem k l) eqn:E; [|reflexivity].
    apply string_mem_In, (count_occ_In string_dec) in E. lia.
  - intros H.
    rewrite (proj1 (count_occ_not_In string_dec l k)); [reflexivity|].
    intros Hc. apply string_mem_In in Hc. congruence.
Qed.

Lemma string_mem_first_seen (k : string) (l : list string) :
  string_mem k (first_seen l) = string_mem k l.
Proof.
  destruct (string_mem k l) eqn:E.
  - apply string_mem_In. apply (proj2 (first_seen_In _ _)).
    now apply string_mem_In.
  - destruct (string_mem k (first_seen l)) eqn:E'; [|reflexivity].
    apply (proj1 (string_mem_In _ _)) in E'.
    apply (proj1 (first_seen_In _ _)) in E'.
    apply (proj2 (string_mem_In _ _)) in E'. congruence.
Qed.

Lemma string_mem_storable (k : string) (l : list string) :
  String.eqb k "__proto__" = false ->
  string_mem k (storable_tokens l) = string_mem k l.
Proof.
  intros Hk. unfold storable_tokens. induction l as [|t l IH]; [reflexivity|].
  cbn [filter]. destruct (String.eqb t "__proto__") eqn:Et; cbn [negb].
  - rewrite IH. unfold string_mem. cbn [existsb].
    destruct (String.eqb k t) eqn:Ekt; [|reflexivity].
    apply String.eqb_eq in Ekt. subst t. congruence.
  - unfold string_mem in *. cbn [existsb]. now rewrite IH.
Qed.

Lemma storable_tokens_snoc (t : string) (l : list string) :
  storable_tokens (l ++ [t])%list =
  if String.eqb t "__proto__" then storable_tokens l
  else (storable_tokens l ++ [t])%list.
Proof.
  unfold storable_tokens. rewrite filter_app. cbn [filter].
  destruct (String.eqb t "__proto__"); cbn [negb]; [apply app_nil_r | reflexivity].
Qed.

(** The table after counting any tokens [l]. *)
Lemma count_tokens_table_full (l : list string) :
  map fst (fold_left count_token l []) = first_seen (storable_tokens l) /\
  forall k, own_lookup k (fold_left count_token l []) = counted_as k (occurrences k l).
Proof.
  induction l as [|t l [Hkeys Hval]] using rev_ind.
  - split; [reflexivity|]. intros k. unfold counted_as. simpl.
    destruct (String.eqb k "__proto__"); reflexivity.
  - rewrite fold_left_app. cbn [fold_left].
    set (o := fold_left count_token l []) in *.
    destruct (String.eqb t "__proto__") eqn:Ep.
    + (* the inherited accessor is read, and the assignment is ignored *)
      assert (Eo : count_token o t = o).
      { unfold count_token, object_get, object_set.
        rewrite (Hval t). unfold counted_as. rewrite Ep.
        apply String.eqb_eq in Ep. subst t. reflexivity. }
      rewrite Eo, storable_tokens_snoc, Ep. split; [exact Hkeys|].
      intros k. rewrite Hval, occurrences_snoc. unfold counted_as.
      destruct (String.eqb k "__proto__") eqn:Ek; [reflexivity|].
      destruct (String.eqb k t) eqn:Ekt; [|now rewrite Z.add_0_r].
      apply String.eqb_eq in Ekt. subst k. congruence.
    + pose proof (occurrences_nonneg t l) as Hn.
      assert (Hin : string_mem t (map fst o) = negb (occurrences t l =? 0)).
      { rewrite Hkeys, string_mem_first_seen, string_mem_storable by exact Ep.
        destruct (occurrences t l =? 0) eqn:Ez.
        - apply Z.eqb_eq in Ez. now apply occurrences_zero.
        - destruct (string_mem t l) eqn:Em; [reflexivity|].
          apply occurrences_zero in Em. apply Z.eqb_neq in Ez. contradiction. }
      assert (Estore : exists n,
                 count_token o t = own_store t n o /\
                 Some n = counted_as t (occurrences t l + 1)).
      { unfold count_token, object_get, object_set. rewrite Ep, (Hval t).
        unfold counted_as. rewrite Ep.
        destruct (string_mem t Object_prototype_keys);
          destruct (occurrences t l =? 0) eqn:Ez.
        - apply Z.eqb_eq in Ez. rewrite Ez. simpl. eexists; split; reflexivity.
        - apply Z.eqb_neq in Ez.
          assert (Ez1 : (occurrences t l + 1 =? 0) = false) by (apply Z.eqb_neq; lia).
          assert (Ez2 : (occurrences t l + 1 =? 1) = false) by (apply Z.eqb_neq; lia).
          rewrite Ez1, Ez2.
          destruct (occurrences t l =? 1) eqn:E1.
          + apply Z.eqb_eq in E1. rewrite E1. simpl. eexists; split; reflexivity.
          + apply Z.eqb_neq in E1. cbn [value_truthy number_truthy].
            assert (Et : (occurrences t l - 1 =? 0) = false)
              by (apply Z.eqb_neq; lia).
            rewrite Et. simpl. eexists; split; [reflexivity|].
            do 2 f_equal. lia.
        - apply Z.eqb_eq in Ez. rewrite Ez. simpl. eexists; split; reflexivity.
        - assert (Ez1 : (occurrences t l + 1 =? 0) = false)
            by (apply Z.eqb_neq in Ez; apply Z.eqb_neq; lia).
          rewrite Ez1. cbn [value_truthy number_truthy]. rewrite Ez. simpl.
          eexists; split; reflexivity. }
      destruct Estore as (n & Estore & En). rewrite Estore. split.
      * rewrite own_store_keys, Hin, storable_tokens_snoc, Ep, first_seen_snoc.
        rewrite string_mem_storable by exact Ep.
        destruct (occurrences t l =? 0) eqn:Ez; simpl.
        -- apply Z.eqb_eq in Ez. apply occurrences_zero in Ez.
           rewrite Ez, Hkeys. reflexivity.
        -- destruct (string_mem t l) eqn:Em; [exact Hkeys|].
           apply occurrences_zero in Em. apply Z.eqb_neq in Ez. contradiction.
      * intros k. rewrite own_lookup_store, occurrences_snoc.
        destruct (String.eqb k t) eqn:Ekt.
        -- apply String.eqb_eq in Ekt. subst k. exact En.
        -- rewrite Z.add_0_r. apply Hval.
Qed.

(** X21. The table of genre counts as the method reads it, whatever the
    genres.  [Object.keys] lists the distinct tokens other than [__proto__]:
    those that are array indices first, in ascending numeric order, then
    the others in first-seen order (so all in first-seen order when no
    token is an array index).  Reading the table at a token that names
    another property of [Object.prototype] (such as "constructor") gives
    NaN when it occurs once and one less than its number of occurrences
    when it occurs more often; at any other token it gives the number of
    its occurrences. *)
Theorem genreCounts_of_table (books : list Book.t) :
  Object_keys (genreCounts_of books)
  = (toSorted (fun a b => Num (index_of_key a - index_of_key b))
              (filter is_array_index
                      (first_seen (storable_tokens (all_tokens books))))
     ++ filter (fun k => negb (is_array_index k))
               (first_seen (storable_tokens (all_tokens books))))%list /\
  (Forall (fun t => is_array_index t = false) (all_tokens books) ->
   Object_keys (genreCounts_of books)
   = first_seen (storable_tokens (all_tokens books))) /\
  (forall k,
      object_get (genreCounts_of books) k
      = match counted_as k (occurrences k (all_tokens books)) with
        | Some n => Number n
        | None => if string_mem k Object_prototype_keys then Inherited else Undefined
        end) /\
  (forall k,
      k <> "__proto__" -> string_mem k Object_prototype_keys = false ->
      In k (all_tokens books) ->
      object_get (genreCounts_of books) k
      = Number (Num (occurrences k (all_tokens books)))).
Proof.
  rewrite genreCounts_of_tokens.
  destruct (count_tokens_table_full (all_tokens books)) as [Hkeys Hval].
  assert (Hget : forall k,
             object_get (fold_left count_token (all_tokens books) []) k
             = match counted_as k (occurrences k (all_tokens books)) with
               | Some n => Number n
               | None => if string_mem k Object_prototype_keys
                         then Inherited else Undefined
               end).
  { intros k. unfold object_get. rewrite Hval. reflexivity. }
  split; [|split; [|split]].
  - unfold Object_keys. rewrite Hkeys. reflexivity.
  - intros Hplain. unfold Object_keys. rewrite Hkeys.
    apply own_property_order_plain.
    rewrite Forall_forall in *. intros k Hk. apply Hplain.
    apply (proj1 (first_seen_In _ _)) in Hk.
    unfold storable_tokens in Hk. apply filter_In in Hk. tauto.
  - exact Hget.
  - intros k Hk Hp Hin. rewrite Hget. unfold counted_as.
    apply String.eqb_neq in Hk. rewrite Hk, Hp.
    destruct (occurrences k (all_tokens books) =? 0) eqn:Ez; [|reflexivity].
    apply Z.eqb_eq in Ez. apply occurrences_zero in Ez.
    apply (proj2 (string_mem_In _ _)) in Hin. congruence.
Qed.

Lemma first_seen_nil (l : list string) : first_seen l = [] -> l = [].
Proof. destruct l; [reflexivity | discriminate]. Qed.

Lemma storable_tokens_nil (l : list string) :
  storable_tokens l = [] <-> Forall (fun t => t = "__proto__") l.
Proof.
  unfold storable_tokens. induction l as [|t l IH]; cbn [filter].
  - split; [constructor | reflexivity].
  - destruct (String.eqb t "__proto__") eqn:E; cbn [negb].
    + apply String.eqb_eq in E. rewrite IH. split.
      * now constructor.
      * intros H. now inversion H.
    + apply String.eqb_neq in E. split; [discriminate|].
      intros H. inversion H. contradiction.
Qed.

Lemma own_property_order_nil (l : list string) :
  own_property_order l = [] <-> l = [].
Proof.
  split; [|intros ->; reflexivity].
  intros H. destruct l as [|k l]; [reflexivity|]. exfalso.
  assert (Hin : In k (own_property_order (k :: l)))
    by (apply (proj2 (own_property_order_In _ _)); now left).
  rewrite H in Hin. exact Hin.
Qed.

(** X22. [getFavoriteGenre] throws exactly when the list is not empty and
    its books yield no token other than [__proto__]; what it throws is the
    TypeError of [reduce]. *)
Theorem getFavoriteGenre_throws_iff (this : UserState) (e : JsError) :
  getFavoriteGenre this = Throw e <->
  e = TypeError "Reduce of empty array with no initial value" /\
  allBooks this <> [] /\
  Forall (fun t => t = "__proto__") (all_tokens (allBooks this)).
Proof.
  unfold getFavoriteGenre.
  destruct (allBooks this) as [|b0 books] eqn:Eb.
  - split; [discriminate | intros (_ & H & _); now elim H].
  - rewrite genreCounts_of_tokens. unfold Object_keys.
    destruct (count_tokens_table_full (all_tokens (b0 :: books))) as [Hkeys _].
    rewrite Hkeys.
    destruct (own_property_order (first_seen (storable_tokens (all_tokens (b0 :: books)))))
      as [|k0 ks] eqn:Eo; cbn [reduce].
    + apply own_property_order_nil, first_seen_nil, storable_tokens_nil in Eo.
      split.
      * intros H. inversion H. split; [reflexivity|]. split; [discriminate | exact Eo].
      * intros (-> & _ & _). reflexivity.
    + split; [discriminate|]. intros (_ & _ & Hall).
      apply storable_tokens_nil in Hall. rewrite Hall in Eo. discriminate Eo.
Qed.

(* --------------------------------------------------------------- *)
(** *** What the favorite genre is *)

Lemma substring_of_trans (a b c : string) :
  substring_of a b -> substring_of b c -> substring_of a c.
Proof.
  intros (p1 & q1 & ->) (p2 & q2 & ->). exists (p2 ++ p1), (q1 ++ q2).
  rewrite !string_app_assoc. reflexivity.
Qed.

Lemma concat_In_substring (sep seg : string) (segs : list string) :
  In seg segs -> substring_of seg (String.concat sep segs).
Proof.
  induction segs as [|x xs IH]; [contradiction|].
  intros Hin. destruct xs as [|y ys].
  - destruct Hin as [->|[]]. exists "", "". simpl.
    clear IH. induction seg as [|c s IHs]; simpl; [reflexivity | now rewrite <- IHs].
  - change (String.concat sep (x :: y :: ys))
      with (x ++ sep ++ String.concat sep (y :: ys)).
    destruct Hin as [->|Hin].
    + exists "", (sep ++ String.concat sep (y :: ys)). reflexivity.
    + destruct (IH Hin) as (p & q & E). rewrite E.
      exists (x ++ sep ++ p), q. rewrite !string_app_assoc. reflexivity.
Qed.

Lemma trim_substring (s : string) : substring_of (trim s) s.
Proof. destruct (trim_spec s) as (l & r & E & _). now exists l, r. Qed.

Lemma book_token_genre (book : Book.t) (t : string) :
  In t (book_tokens book) ->
  exists bg seg,
    Book.genre book = Some bg /\ In seg (split bg ",") /\ t = trim seg /\ t <> ""
    /\ substring_of t bg.
Proof.
  unfold book_tokens. destruct (Book.genre book) as [bg|]; [|contradiction].
  intros H. apply filter_In in H. destruct H as [Hin Hne].
  apply in_map_iff in Hin. destruct Hin as (seg & <- & Hseg).
  exists bg, seg. split; [reflexivity|]. split; [exact Hseg|]. split; [reflexivity|].
  split.
  - intros E. rewrite E in Hne. discriminate.
  - apply substring_of_trans with (b := seg); [apply trim_substring|].
    pose proof (concat_In_substring "," seg _ Hseg) as H.
    rewrite split_join in H by discriminate. exact H.
Qed.

Lemma fold_pick_In {A} (c : A -> A -> bool) (ks : list A) (k0 : A) :
  In (fold_left (fun a b => if c a b then a else b) ks k0) (k0 :: ks).
Proof.
  revert k0; induction ks as [|b ks IH]; intros k0; simpl; [now left|].
  destruct (c k0 b).
  - destruct (IH k0) as [H|H]; [now left | right; now right].
  - right. apply IH.
Qed.

(** Whatever [getFavoriteGenre] returns for a non-empty list is one of the
    tokens of its books. *)
Lemma getFavoriteGenre_token (this : UserState) (g : string) :
  allBooks this <> [] -> getFavoriteGenre this = Normal g ->
  In g (all_tokens (allBooks this)).
Proof.
  intros Hne E. unfold getFavoriteGenre in E.
  destruct (allBooks this) as [|b0 books] eqn:Eb; [now elim Hne|].
  rewrite genreCounts_of_tokens in E. unfold Object_keys in E.
  destruct (count_tokens_table_full (all_tokens (b0 :: books))) as [Hkeys _].
  rewrite Hkeys in E.
  destruct (own_property_order (first_seen (storable_tokens (all_tokens (b0 :: books)))))
    as [|k0 ks] eqn:Eo; cbn [reduce] in E; [discriminate|].
  rewrite or_empty_string in E. injection E as Eg.
  match type of Eg with
  | fold_left ?f ks k0 = g =>
      assert (Hin : In (fold_left f ks k0) (k0 :: ks)) by apply fold_pick_In
  end.
  rewrite Eg, <- Eo in Hin.
  apply (proj1 (listed_key_In _ _)) in Hin.
  unfold storable_tokens in Hin. apply filter_In in Hin. tauto.
Qed.

(** X23. For a non-empty list, whatever [getFavoriteGenre] returns is a
    trimmed, non-empty token of the genre of one of its books, and so
    occurs in that genre: [getBooksFromFavoriteGenre] then returns at least
    that book. *)
Theorem getFavoriteGenre_is_a_genre_of_the_list (this : UserState) (g : string) :
  allBooks this <> [] ->
  getFavoriteGenre this = Normal g ->
  exists book bg books,
    In book (allBooks this) /\
    Book.genre book = Some bg /\
    In g (book_tokens book) /\
    substring_of g bg /\
    getBooksFromFavoriteGenre this = Normal books /\
    In book books.
Proof.
  intros Hne E.
  pose proof (getFavoriteGenre_token this g Hne E) as Hin.
  unfold all_tokens in Hin. apply in_flat_map in Hin.
  destruct Hin as (book & Hbook & Htok).
  destruct (book_token_genre book g Htok) as (bg & seg & Hg & _ & _ & _ & Hsub).
  exists book, bg. eexists. split; [exact Hbook|]. split; [exact Hg|].
  split; [exact Htok|]. split; [exact Hsub|].
  unfold getBooksFromFavoriteGenre. rewrite E. split; [reflexivity|].
  apply toSorted_In, filter_In. split; [exact Hbook|].
  rewrite Hg. now apply includes_spec.
Qed.

Lemma chars_app (u v : string) :
  list_ascii_of_string (u ++ v) =
  (list_ascii_of_string u ++ list_ascii_of_string v)%list.
Proof. induction u as [|c u IH]; simpl; [reflexivity | now rewrite IH]. Qed.

Lemma split_scan_char (c : ascii) (s : string) :
  ~ In c (list_ascii_of_string (fst (split_scan (String c "") 0 s))) /\
  Forall (fun seg => ~ In c (list_ascii_of_string seg))
         (snd (split_scan (String c "") 0 s)).
Proof.
  induction s as [|d r [IH1 IH2]]; cbn [split_scan].
  - split; [simpl; tauto | constructor].
  - destruct (String.prefix (String c "") (String d r)) eqn:Ep.
    + cbn [String.length Nat.pred].
      destruct (split_scan (String c "") 0 r) as [seg segs]. cbn [fst snd] in *.
      split; [simpl; tauto | now constructor].
    + destruct (split_scan (String c "") 0 r) as [seg segs]. cbn [fst snd] in *.
      split; [|exact IH2]. simpl. intros [<-|H]; [|contradiction].
      assert (Hp : String.prefix (String d "") (String d r) = true)
        by (apply prefix_spec; now exists r).
      congruence.
Qed.

Lemma split_comma_free (s seg : string) :
  In seg (split s ",") -> ~ substring_of "," seg.
Proof.
  unfold split. intros Hin (pre & post & E).
  destruct (split_scan_char ","%char s) as [H1 H2].
  assert (Hc : In ","%char (list_ascii_of_string seg)).
  { rewrite E, !chars_app. apply in_or_app. right. now left. }
  destruct (split_scan "," 0 s) as [seg0 segs]. cbn [fst snd] in *.
  rewrite Forall_forall in H2.
  destruct Hin as [<-|Hin]; [contradiction | exact (H2 seg Hin Hc)].
Qed.

(** X24. For a non-empty list, whatever [getFavoriteGenre] returns is not
    empty, has no white space at either end and contains no comma. *)
Theorem getFavoriteGenre_is_a_clean_label (this : UserState) (g : string) :
  allBooks this <> [] ->
  getFavoriteGenre this = Normal g ->
  g <> "" /\
  (forall c rest, g = String c rest -> is_white_space c = false) /\
  (forall front c, g = front ++ String c "" -> is_white_space c = false) /\
  ~ substring_of "," g.
Proof.
  intros Hne E.
  pose proof (getFavoriteGenre_token this g Hne E) as Hin.
  unfold all_tokens in Hin. apply in_flat_map in Hin.
  destruct Hin as (book & _ & Htok).
  destruct (book_token_genre book g Htok) as (bg & seg & _ & Hseg & Hg & Hnon & _).
  destruct (trim_spec seg) as (l & r & _ & _ & _ & Hfirst & Hlast).
  rewrite <- Hg in Hfirst, Hlast.
  split; [exact Hnon|]. split; [exact Hfirst|]. split; [exact Hlast|].
  intros Hcomma. apply (split_comma_free bg seg Hseg).
  apply substring_of_trans with (b := g); [exact Hcomma|].
  rewrite Hg. apply trim_substring.
Qed.

(* --------------------------------------------------------------- *)
(** *** Looking a book up *)

(** X25. [getBookById] returns the first book of the list with the given
    id, and returns nothing exactly when no book of the list has that id. *)
Theorem getBookById_first_match (bookId : Z) (this : UserState) :
  (forall book,
      getBookById bookId this = Some book ->
      Book.id book = bookId /\
      exists front back,
        allBooks this = (front ++ book :: back)%list /\
        Forall (fun b => Book.id b <> bookId) front) /\
  (getBookById bookId this = None <->
   Forall (fun b => Book.id b <> bookId) (allBooks this)).
Proof.
  unfold getBookById, array_find.
  induction (allBooks this) as [|b l [IH1 IH2]]; simpl.
  - split; [discriminate|]. split; [constructor | reflexivity].
  - destruct (Book.id b =? bookId) eqn:E.
    + apply Z.eqb_eq in E. split.
      * intros book H. inversion H; subst book. split; [exact E|].
        exists [], l. split; [reflexivity | constructor].
      * split; [discriminate|]. intros H. inversion H. contradiction.
    + apply Z.eqb_neq in E. split.
      * intros book H. destruct (IH1 book H) as (Hid & front & back & -> & Hf).
        split; [exact Hid|]. exists (b :: front), back.
        split; [reflexivity | now constructor].
      * rewrite IH2. split; [now constructor|]. intros H. now inversion H.
Qed.

(* ================================================================= *)
(** ** The further properties at sample inputs *)

Lemma updateState_success_witness :
  userName (updateState sample_url backend_up (props_of bob)
                        (state_of_books tied_genres)) = Some "bob" /\
  map Book.id (allBooks (updateState sample_url backend_up (props_of bob)
                                     (state_of_books tied_genres))) = [1].
Proof.
  destruct (updateState_success
              sample_url backend_up (props_of bob) (state_of_books tied_genres)
              bob sample_client
              [sample_book 1 "bob" (Some "Sci-Fi") (Some 4)] (UserNameRow.mk "bob")
              eq_refl eq_refl eq_refl eq_refl eq_refl eq_refl)
    as (Hn & _ & Hids & _).
  split; [exact Hn | exact Hids].
Defined.

Lemma updateState_success_replaces_witness :
  updateState sample_url backend_up (props_of bob) (state_of_books tied_genres)
  = updateState sample_url backend_up (props_of bob) initial_state.
Proof.
  apply (updateState_success_replaces
           sample_url backend_up (props_of bob) (state_of_books tied_genres)
           initial_state bob sample_client eq_refl eq_refl).
  repeat split; simpl; discriminate || reflexivity.
Defined.

Lemma sign_cover_image_file_path_witness :
  Book.cover_image
    (sign_cover_image sample_url backend_up (state_of_books [])
       (sample_cover_book 1 (Some (bucket_path sample_url ++ "alice/cover.png"))))
  = Some "https://signed".
Proof.
  rewrite (sign_cover_image_file_path
             sample_url backend_up (state_of_books []) sample_client
             (sample_cover_book 1 (Some (bucket_path sample_url ++ "alice/cover.png")))
             "alice/cover.png" eq_refl eq_refl eq_refl).
  reflexivity.
Defined.

Lemma sign_cover_image_foreign_witness :
  sign_cover_image sample_url backend_up (state_of_books [])
                   (sample_cover_book 1 (Some "https://covers.example.org/1.png"))
  = sample_cover_book 1 (Some "https://covers.example.org/1.png").
Proof.
  apply sign_cover_image_foreign.
  intros cover H. inversion H. right. reflexivity.
Defined.

Lemma sign_cover_image_undefined_path_witness :
  Book.cover_image
    (sign_cover_image sample_url backend_up (state_of_books [])
       (sample_cover_book 1 (Some (sample_url ++ "/logo.png"))))
  = Some "https://signed".
Proof.
  rewrite (sign_cover_image_undefined_path
             sample_url backend_up (state_of_books []) sample_client
             (sample_cover_book 1 (Some (sample_url ++ "/logo.png")))
             (sample_url ++ "/logo.png") eq_refl eq_refl).
  - reflexivity.
  - discriminate.
  - reflexivity.
  - reflexivity.
Defined.

Lemma updateBook_success_witness :
  exists this',
    updateBook backend_up 2 (started_update "2024-03-01") (state_of_books tied_genres)
    = Normal this' /\
    option_map Book.started_reading_on (getBookById 2 this')
    = Some (Some "2024-03-01") /\
    getBookById 1 this' = getBookById 1 (state_of_books tied_genres).
Proof.
  destruct (updateBook_success
              backend_up 2 (started_update "2024-03-01") (state_of_books tied_genres)
              sample_client eq_refl eq_refl eq_refl)
    as (this' & E & _ & Hget & Hother).
  exists this'. split; [exact E|]. split.
  - rewrite Hget. reflexivity.
  - apply Hother. discriminate.
Defined.

Lemma updateBook_idempotent_witness :
  exists this1,
    updateBook backend_up 1 (rating_update 5) (state_of_books tied_genres)
    = Normal this1 /\
    updateBook backend_up 1 (rating_update 5) this1 = Normal this1.
Proof.
  eexists. split; [reflexivity|].
  assert (E2 : updateBook backend_up 1 (rating_update 5)
                 (set_allBooks (state_of_books tied_genres)
                    (map (patch_book 1 (rating_update 5)) tied_genres))
               = Normal
                   (set_allBooks
                      (set_allBooks (state_of_books tied_genres)
                         (map (patch_book 1 (rating_update 5)) tied_genres))
                      (map (patch_book 1 (rating_update 5))
                         (map (patch_book 1 (rating_update 5)) tied_genres))))
    by reflexivity.
  rewrite <- (updateBook_idempotent
                backend_up 1 (rating_update 5) (state_of_books tied_genres)
                _ _ eq_refl E2) at 2.
  exact E2.
Defined.

Lemma updateBook_commutes_witness :
  exists this1 this2 this12 this21,
    updateBook backend_up 1 (rating_update 5) (state_of_books tied_genres)
    = Normal this1 /\
    updateBook backend_up 2 (started_update "2024-03-01") this1 = Normal this12 /\
    updateBook backend_up 2 (started_update "2024-03-01") (state_of_books tied_genres)
    = Normal this2 /\
    updateBook backend_up 1 (rating_update 5) this2 = Normal this21 /\
    this12 = this21.
Proof.
  do 4 eexists.
  assert (E1 : updateBook backend_up 1 (rating_update 5) (state_of_books tied_genres)
               = Normal _) by reflexivity.
  assert (E2 : updateBook backend_up 2 (started_update "2024-03-01")
                          (state_of_books tied_genres) = Normal _) by reflexivity.
  split; [exact E1|].
  assert (E12 : updateBook backend_up 2 (started_update "2024-03-01")
                  (set_allBooks (state_of_books tied_genres)
                     (map (patch_book 1 (rating_update 5)) tied_genres))
                = Normal _) by reflexivity.
  split; [exact E12|]. split; [exact E2|].
  assert (E21 : updateBook backend_up 1 (rating_update 5)
                  (set_allBooks (state_of_books tied_genres)
                     (map (patch_book 2 (started_update "2024-03-01")) tied_genres))
                = Normal _) by reflexivity.
  split; [exact E21|].
  apply (updateBook_commutes backend_up 1 2 (rating_update 5)
                             (started_update "2024-03-01")
                             (state_of_books tied_genres) _ _ _ _
                             ltac:(discriminate) E1 E12 E2 E21).
Defined.

Lemma updates_keep_the_shelf_witness :
  exists this',
    uploadBookCover backend_up sample_file 1 (state_of_books tied_genres)
    = Normal this' /\
    map book_identity (allBooks this') = map book_identity tied_genres.
Proof.
  eexists. split; [reflexivity|].
  exact (proj1 (proj2 updates_keep_the_shelf backend_up sample_file 1
                      (state_of_books tied_genres) _ eq_refl)).
Defined.


Lemma uploadBookCover_aborts_witness :
  uploadBookCover backend_unsigned sample_file 1 (state_of_books tied_genres)
  = Normal (state_of_books tied_genres).
Proof.
  apply (uploadBookCover_aborts
           backend_unsigned sample_file 1 (state_of_books tied_genres)
           alice "alice/cover.png" eq_refl eq_refl).
  right. right. right. left. reflexivity.
Defined.

Lemma no_client_no_change_witness :
  updateBook backend_up 1 (rating_update 5) initial_state = Normal initial_state /\
  uploadBookCover backend_up sample_file 1 initial_state = Normal initial_state.
Proof.
  destruct (proj1 (no_client_no_change sample_url backend_up initial_state) eq_refl)
    as (_ & Hupdate & Hupload).
  split; [apply Hupdate | apply Hupload].
Defined.

Lemma getUnreadBooks_top_witness :
  exists omitted,
    Permutation (getUnreadBooks sample_getTime (state_of_books sample_shelf)
                 ++ omitted)%list
                (filter (fun book =>
                           negb (nullable_string_truthy (Book.started_reading_on book)))
                        sample_shelf) /\
    omitted = [].
Proof.
  destruct (getUnreadBooks_top sample_getTime (state_of_books sample_shelf))
    as (omitted & Hperm & _ & Hall & _).
  - intros book Hin. simpl in Hin.
    destruct Hin as [<-|[<-|[<-|[<-|[]]]]]; eexists; vm_compute; reflexivity.
  - exists omitted. split; [exact Hperm|]. apply Hall. vm_compute. lia.
Defined.

Lemma getBooksFromFavoriteGenre_complete_witness :
  exists g,
    getFavoriteGenre (state_of_books tied_genres) = Normal g /\
    Permutation [sample_book 2 "alice" (Some "Poetry") None]
                (filter (fun book => match Book.genre book with
                                     | Some bg => includes bg g
                                     | None => false
                                     end)
                        tied_genres).
Proof.
  destruct (getBooksFromFavoriteGenre_complete
              (state_of_books tied_genres)
              [sample_book 2 "alice" (Some "Poetry") None] eq_refl)
    as (g & Eg & Hperm & _).
  exists g. split; [exact Eg | exact Hperm].
Defined.

Lemma updateBook_removes_from_views_witness :
  exists this',
    updateBook backend_up 1 (rating_update 0) (state_of_books tied_genres)
    = Normal this' /\
    Forall (fun book => Book.id book <> 1) (getHighestRatedBooks this').
Proof.
  eexists. split; [reflexivity|].
  apply (proj1 (updateBook_removes_from_views
                  sample_getTime backend_up 1 (rating_update 0)
                  (state_of_books tied_genres) _ sample_client
                  eq_refl eq_refl eq_refl eq_refl)).
  right. reflexivity.
Defined.

Lemma updateBook_adds_to_highest_rated_witness :
  exists this',
    updateBook backend_up 2 (rating_update 5) (state_of_books tied_genres)
    = Normal this' /\
    In (sample_book 2 "alice" (Some "Poetry") (Some 5)) (getHighestRatedBooks this').
Proof.
  eexists. split; [reflexivity|].
  apply (updateBook_adds_to_highest_rated
           backend_up 2 (rating_update 5) (state_of_books tied_genres) _
           sample_client (sample_book 2 "alice" (Some "Poetry") None) 5
           eq_refl eq_refl eq_refl eq_refl eq_refl eq_refl).
  - discriminate.
  - vm_compute. lia.
Defined.

Lemma getFavoriteGenre_unaffected_witness :
  exists this',
    updateBook backend_up 1 (rating_update 5) (state_of_books tied_genres)
    = Normal this' /\
    getFavoriteGenre this' = getFavoriteGenre (state_of_books tied_genres).
Proof.
  eexists. split; [reflexivity|].
  exact (proj2 getFavoriteGenre_unaffected backend_up 1 (rating_update 5)
               (state_of_books tied_genres) _ eq_refl eq_refl).
Defined.

Example genreCounts_of_table_sample :
  Object_keys (genreCounts_of [sample_book 1 "alice" (Some "7, Drama, 10, 9") None])
  = ["7"; "9"; "10"; "Drama"].
Proof. vm_compute. reflexivity. Qed.

Lemma genreCounts_of_table_witness :
  Object_keys (genreCounts_of tied_genres) = ["Drama"; "Comedy"; "Poetry"] /\
  object_get (genreCounts_of tied_genres) "Poetry" = Number (Num 1).
Proof.
  destruct (genreCounts_of_table tied_genres) as (_ & Hkeys & _ & Hget).
  split.
  - rewrite Hkeys; [vm_compute; reflexivity|].
    apply Forall_forall. intros t Hin. vm_compute in Hin.
    destruct Hin as [<-|[<-|[<-|[]]]]; vm_compute; reflexivity.
  - rewrite (Hget "Poetry").
    + vm_compute. reflexivity.
    + discriminate.
    + vm_compute. reflexivity.
    + vm_compute. tauto.
Defined.

Lemma getFavoriteGenre_throws_iff_witness :
  getFavoriteGenre
    (state_of_books [sample_book 1 "alice" (Some "__proto__, ,__proto__") None])
  = Throw (TypeError "Reduce of empty array with no initial value").
Proof.
  apply (proj2 (getFavoriteGenre_throws_iff _ _)).
  split; [reflexivity|]. split; [discriminate|].
  vm_compute. repeat constructor.
Defined.

Lemma getFavoriteGenre_is_a_genre_of_the_list_witness :
  exists book bg,
    In book tied_genres /\ Book.genre book = Some bg /\ substring_of "Poetry" bg.
Proof.
  destruct (getFavoriteGenre_is_a_genre_of_the_list
              (state_of_books tied_genres) "Poetry")
    as (book & bg & books & Hin & Hg & _ & Hsub & _).
  - discriminate.
  - reflexivity.
  - exists book, bg. split; [exact Hin|]. split; [exact Hg | exact Hsub].
Defined.

Lemma getFavoriteGenre_is_a_clean_label_witness :
  ~ substring_of "," "Poetry".
Proof.
  apply (getFavoriteGenre_is_a_clean_label (state_of_books tied_genres) "Poetry").
  - discriminate.
  - reflexivity.
Defined.

Lemma getBookById_first_match_witness :
  Book.id (sample_book 2 "alice" (Some "Poetry") None) = 2.
Proof.
  apply (proj1 (getBookById_first_match 2 (state_of_books tied_genres))
               (sample_book 2 "alice" (Some "Poetry") None) eq_refl).
Defined.
